(** * Code Sidekick: credential store, GitHub tools and task prompts

  A shallow embedding of the three Python modules of the repository
  ([github_tools.py], [api.py], [app.py]) and the properties their
  specification states about them.

  - [Py]          the fragment of Python the code relies on: truthiness,
                  [str()] of integers and exceptions, [str.join],
                  exceptions as values;
  - [GithubTools] the tools of [github_tools.py] over an abstract remote
                  platform, as a state-and-exception monad;
  - [MemHub]      a small in-memory platform that instantiates the remote
                  interface;
  - [Api]         the session store and the endpoints of [api.py];
  - [App]         the debug task prompt of [app.py];
  - [StringFacts], [ToolFacts], [ApiFacts], [CredentialStore], [AppFacts]
                  the properties, proved for every remote platform;
  - [Scenarios]   runs of the code on the in-memory platform;
  - [AppTasks]    the other task prompts of [app.py];
  - [ToolEffects], [ToolOutcomes], [TokenFacts], [SessionFacts],
    [TaskFacts]   further properties of the tools, the token, the
                  sessions and the prompts;
  - [MoreScenarios] further runs on the in-memory platform. *)

From Stdlib Require Import ZArith String Ascii List Lia.
From Stdlib Require Import Numbers.DecimalString.
From stdpp Require Import base option list strings gmap.

Local Open Scope string_scope.

(* ===================================================================== *)
(** * Python values and exceptions *)
(* ===================================================================== *)

Module Py.

(** [str(n)] for a Python [int]. *)
Definition str_int (n : Z) : string := NilZero.string_of_int (Z.to_int n).

(** Truthiness of the values the code tests with [if x] / [if not x]:
    [None] and the empty string are falsy, [0] is falsy. *)
Definition truthy_str (s : string) : bool :=
  match s with EmptyString => false | String _ _ => true end.

Definition truthy_opt (v : option string) : bool :=
  match v with None => false | Some s => truthy_str s end.

Definition truthy_int (n : Z) : bool := negb (n =? 0)%Z.

(** [str(v)] for a value that is a string or [None]. *)
Definition str_opt (v : option string) : string :=
  match v with None => "None" | Some s => s end.

(** [sep.join(items)]. *)
Fixpoint join (sep : string) (items : list string) : string :=
  match items with
  | [] => ""
  | [x] => x
  | x :: rest => x ++ sep ++ join sep rest
  end.

(** The newline character, [chr(10)]. *)
Definition LF : string := String (ascii_of_nat 10) EmptyString.

(** The two-character string the Python literal ["\\n"] denotes: a
    backslash followed by the letter n. *)
Definition backslash_n : string := String (ascii_of_nat 92) "n".

(** The exceptions the code raises or receives, all subclasses of
    [Exception]. [GithubException] carries the text [str(e)] of the
    failure the remote platform reported. *)
Inductive exn : Type :=
| RuntimeError (msg : string)
| AttributeError (msg : string)
| UnicodeDecodeError (msg : string)
| GithubException (msg : string)
| HTTPException (status_code : Z) (detail : string).

(** [str(e)]. For [HTTPException] this is Starlette's
    ["{status_code}: {detail}"]. *)
Definition str_exn (e : exn) : string :=
  match e with
  | RuntimeError m | AttributeError m
  | UnicodeDecodeError m | GithubException m => m
  | HTTPException c d => str_int c ++ ": " ++ d
  end.

(** What a call does: it returns a value or raises. *)
Inductive outcome (A : Type) : Type :=
| Return (a : A)
| Raise (e : exn).
Arguments Return {A} a.
Arguments Raise {A} e.

Definition raises {A} (o : outcome A) : bool :=
  match o with Return _ => false | Raise _ => true end.

(** [s.startswith(p)] and [p in s]. *)
Definition startswith (p s : string) : Prop := exists rest, s = p ++ rest.
Definition contains (p s : string) : Prop :=
  exists before after, s = before ++ p ++ after.

(** The same two tests as functions, to run them on given strings. *)
Fixpoint starts_with (p s : string) : bool :=
  match p, s with
  | EmptyString, _ => true
  | String a p', String b s' => Ascii.eqb a b && starts_with p' s'
  | String _ _, EmptyString => false
  end.

Fixpoint occurs_in (p s : string) : bool :=
  starts_with p s
  || match s with
     | EmptyString => false
     | String _ s' => occurs_in p s'
     end.

(** The JSON-like values the endpoints return. *)
#[local] Unset Elimination Schemes.
Inductive json : Type :=
| JStr (s : string)
| JList (l : list json)
| JObj (fields : list (string * json)).
#[local] Set Elimination Schemes.

End Py.
Import Py.

(* ===================================================================== *)
(** * github_tools.py *)
(* ===================================================================== *)

Module GithubTools.

(** ** The objects of the client library *)

(** [Github(auth=Auth.Token(token))]: a client is its token. *)
Record Github : Type := { auth_token : string }.

Record Repository : Type := { full_name : string; default_branch : string }.

(** An element of a git tree; [tree_type] is ['blob'], ['tree'] or
    ['commit']. *)
Record GitTreeElement : Type := { tree_path : string; tree_type : string }.

(** [decoded_content] holds the bytes of the file. *)
Record ContentFile : Type :=
  { content_path : string; content_sha : string; decoded_content : string }.

(** [repo.get_contents] returns one file, or a list for a directory. *)
Inductive contents : Type :=
| CFile (f : ContentFile)
| CDir (entries : list ContentFile).

Record Branch : Type := { commit_sha : string }.
Record PullRequest : Type := { number : Z; html_url : string }.
Record Issue : Type := { title : string; body : option string }.

(** ** The remote platform

    Every operation of the client library the tools call, as a function of
    the platform's state [R]: it returns or raises, and may change the
    state. [decode_utf8] is [bytes.decode('utf-8')]. *)
Class Remote (R : Type) : Type := {
  client_get_user_repos : Github -> R -> outcome (list Repository) * R;
  client_get_repo : Github -> string -> R -> outcome Repository * R;
  repo_get_git_tree :
    Github -> Repository -> string -> R -> outcome (list GitTreeElement) * R;
  repo_get_contents :
    Github -> Repository -> string -> string -> R -> outcome contents * R;
  repo_update_file :
    Github -> Repository -> string -> string -> string -> string -> string ->
    R -> outcome unit * R;
  repo_create_file :
    Github -> Repository -> string -> string -> string -> string ->
    R -> outcome unit * R;
  repo_delete_file :
    Github -> Repository -> string -> string -> string -> string ->
    R -> outcome unit * R;
  repo_get_branch : Github -> Repository -> string -> R -> outcome Branch * R;
  repo_create_git_ref :
    Github -> Repository -> string -> string -> R -> outcome unit * R;
  repo_create_pull :
    Github -> Repository -> string -> string -> string -> string ->
    R -> outcome PullRequest * R;
  repo_get_issue : Github -> Repository -> Z -> R -> outcome Issue * R;
  decode_utf8 : string -> outcome string
}.

(** One remote call as the log records it: the credential it was made
    with, the operation and its text arguments. *)
Record call : Type :=
  { call_client : Github; call_op : string; call_args : list string }.

Section Tools.
Context {R : Type} `{Remote R}.

(** The process state the module works on: the global [github_client], the
    environment, the remote platform, the log of remote calls made and the
    lines printed. *)
Record world : Type := {
  github_client : option Github;
  environ : gmap string string;
  hub : R;
  calls : list call;
  stdout : list string
}.

Definition M (A : Type) : Type := world -> outcome A * world.

#[export] Instance M_ret : MRet M := fun A a w => (Return a, w).
#[export] Instance M_bind : MBind M := fun A B f m w =>
  match m w with
  | (Return a, w') => f a w'
  | (Raise e, w') => (Raise e, w')
  end.

Definition raise {A} (e : exn) : M A := fun w => (Raise e, w).

(** [try: body except Exception as e: handler e]. *)
Definition try_except {A} (body : M A) (handler : exn -> M A) : M A :=
  fun w =>
    match body w with
    | (Return a, w') => (Return a, w')
    | (Raise e, w') => handler e w'
    end.

Definition print (line : string) : M unit := fun w =>
  (Return tt,
   {| github_client := github_client w; environ := environ w; hub := hub w;
      calls := calls w; stdout := stdout w ++ [line] |}).

Definition get_client : M (option Github) := fun w => (Return (github_client w), w).

Definition put_client (c : option Github) : M unit := fun w =>
  (Return tt,
   {| github_client := c; environ := environ w; hub := hub w;
      calls := calls w; stdout := stdout w |}).

Definition getenv (k : string) : M (option string) := fun w =>
  (Return (environ w !! k), w).

Definition modify_environ (f : gmap string string -> gmap string string) : M unit :=
  fun w =>
  (Return tt,
   {| github_client := github_client w; environ := f (environ w); hub := hub w;
      calls := calls w; stdout := stdout w |}).

(** A call of the client library: logged, then run on the platform. *)
Definition remote {A} (c : call) (op : R -> outcome A * R) : M A := fun w =>
  let '(o, h) := op (hub w) in
  (o,
   {| github_client := github_client w; environ := environ w; hub := h;
      calls := calls w ++ [c]; stdout := stdout w |}).

Definition lift {A} (o : outcome A) : M A := fun w => (o, w).

(** ** Client initialisation *)

Definition _init_client_from_env : M unit :=
  token ← getenv "GITHUB_PAT";
  if truthy_opt token then put_client (Some {| auth_token := str_opt token |})
  else mret tt.

Definition set_github_token (token : option string) : M unit :=
  if truthy_opt token then
    modify_environ (insert "GITHUB_PAT" (str_opt token));;
    put_client (Some {| auth_token := str_opt token |})
  else
    modify_environ (delete "GITHUB_PAT");;
    put_client None.

Definition not_configured : string :=
  "GitHub token not configured. Please set a token to continue.".

Definition _ensure_client : M Github :=
  c ← get_client;
  (if c is None then _init_client_from_env else mret tt);;
  c ← get_client;
  match c with
  | None => raise (RuntimeError not_configured)
  | Some g => mret g
  end.

(** ** Tool definitions

    Each tool prints one line, resolves the client, talks to the platform
    and turns every exception into a string. *)

Definition logged (g : Github) (op : string) (args : list string) : call :=
  {| call_client := g; call_op := op; call_args := args |}.

Definition list_my_repositories : M (list string) :=
  print "🛠️ TOOL: Listing all accessible repositories...";;
  try_except
    (client ← _ensure_client;
     repos ← remote (logged client "get_user.get_repos" [])
                    (client_get_user_repos client);
     mret (full_name <$> repos))
    (fun e => mret ["Error listing repositories: " ++ str_exn e]).

Definition is_blob (element : GitTreeElement) : bool :=
  String.eqb (tree_type element) "blob".

Definition list_repository_files (repo_name : string) : M string :=
  print ("🛠️ TOOL: Listing files in " ++ repo_name ++ "...");;
  try_except
    (client ← _ensure_client;
     repo ← remote (logged client "get_repo" [repo_name])
                   (client_get_repo client repo_name);
     tree ← remote (logged client "get_git_tree" [default_branch repo])
                   (repo_get_git_tree client repo (default_branch repo));
     let files := tree_path <$> List.filter is_blob tree in
     mret (join backslash_n files))
    (fun e => mret ("Error listing files: " ++ str_exn e)).

(** Attribute access on what [get_contents] returned: a list has none of
    the attributes of a file. *)
Definition file_attr {A} (attr : string) (proj : ContentFile -> A)
    (c : contents) : M A :=
  match c with
  | CFile f => mret (proj f)
  | CDir _ =>
      raise (AttributeError ("'list' object has no attribute '" ++ attr ++ "'"))
  end.

Definition read_file (repo_name file_path : string) : M string :=
  print ("🛠️ TOOL: Reading " ++ file_path ++ " from " ++ repo_name ++ "...");;
  try_except
    (client ← _ensure_client;
     repo ← remote (logged client "get_repo" [repo_name])
                   (client_get_repo client repo_name);
     file_content ←
       remote (logged client "get_contents" [file_path; default_branch repo])
              (repo_get_contents client repo file_path (default_branch repo));
     bytes ← file_attr "decoded_content" decoded_content file_content;
     lift (decode_utf8 bytes))
    (fun e => mret ("Error reading file: " ++ str_exn e)).

Definition create_or_update_file
    (repo_name file_path content commit_message : string) : M string :=
  print ("🛠️ TOOL: Writing to " ++ file_path ++ " in " ++ repo_name ++ "...");;
  try_except
    (client ← _ensure_client;
     repo ← remote (logged client "get_repo" [repo_name])
                   (client_get_repo client repo_name);
     try_except
       (existing_file ←
          remote (logged client "get_contents" [file_path; default_branch repo])
                 (repo_get_contents client repo file_path (default_branch repo));
        path ← file_attr "path" content_path existing_file;
        sha ← file_attr "sha" content_sha existing_file;
        remote (logged client "update_file"
                  [path; commit_message; content; sha; default_branch repo])
               (repo_update_file client repo path commit_message content sha
                  (default_branch repo));;
        mret ("Successfully updated file '" ++ file_path ++ "'."))
       (fun _ =>
        remote (logged client "create_file"
                  [file_path; commit_message; content; default_branch repo])
               (repo_create_file client repo file_path commit_message content
                  (default_branch repo));;
        mret ("Successfully created file '" ++ file_path ++ "'.")))
    (fun e => mret ("Error creating or updating file: " ++ str_exn e)).

Definition delete_file (repo_name file_path commit_message : string) : M string :=
  print ("🛠️ TOOL: Deleting " ++ file_path ++ " from " ++ repo_name ++ "...");;
  try_except
    (client ← _ensure_client;
     repo ← remote (logged client "get_repo" [repo_name])
                   (client_get_repo client repo_name);
     file ←
       remote (logged client "get_contents" [file_path; default_branch repo])
              (repo_get_contents client repo file_path (default_branch repo));
     path ← file_attr "path" content_path file;
     sha ← file_attr "sha" content_sha file;
     remote (logged client "delete_file"
               [path; commit_message; sha; default_branch repo])
            (repo_delete_file client repo path commit_message sha
               (default_branch repo));;
     mret ("Successfully deleted file '" ++ file_path ++ "'."))
    (fun e => mret ("Error deleting file: " ++ str_exn e)).

Definition create_branch (repo_name branch_name : string) : M string :=
  print ("🛠️ TOOL: Creating branch '" ++ branch_name ++ "' in '"
           ++ repo_name ++ "'...");;
  try_except
    (client ← _ensure_client;
     repo ← remote (logged client "get_repo" [repo_name])
                   (client_get_repo client repo_name);
     source_branch ← remote (logged client "get_branch" [default_branch repo])
                            (repo_get_branch client repo (default_branch repo));
     remote (logged client "create_git_ref"
               ["refs/heads/" ++ branch_name; commit_sha source_branch])
            (repo_create_git_ref client repo ("refs/heads/" ++ branch_name)
               (commit_sha source_branch));;
     mret ("Successfully created branch '" ++ branch_name ++ "'."))
    (fun e => mret ("Error creating branch: " ++ str_exn e)).

Definition create_pull_request
    (repo_name title body head_branch : string) : M string :=
  print ("🛠️ TOOL: Creating PR in " ++ repo_name ++ " from '"
           ++ head_branch ++ "'...");;
  try_except
    (client ← _ensure_client;
     repo ← remote (logged client "get_repo" [repo_name])
                   (client_get_repo client repo_name);
     let base_branch := default_branch repo in
     pr ← remote (logged client "create_pull"
                    [title; body; head_branch; base_branch])
                 (repo_create_pull client repo title body head_branch base_branch);
     mret ("Successfully created Pull Request #" ++ str_int (number pr)
             ++ ": " ++ html_url pr))
    (fun e => mret ("Error creating pull request: " ++ str_exn e)).

Definition get_issue_details (repo_name : string) (issue_number : Z) : M string :=
  print ("🛠️ TOOL: Getting issue #" ++ str_int issue_number ++ " from "
           ++ repo_name ++ "...");;
  try_except
    (client ← _ensure_client;
     repo ← remote (logged client "get_repo" [repo_name])
                   (client_get_repo client repo_name);
     issue ← remote (logged client "get_issue" [str_int issue_number])
                    (repo_get_issue client repo issue_number);
     mret ("Issue Title: " ++ title issue ++ backslash_n
             ++ "Issue Body: " ++ str_opt (body issue)))
    (fun e => mret ("Error getting issue details: " ++ str_exn e)).

(** ** The tools as the agent invokes them

    [tools = [list_my_repositories, list_repository_files, read_file,
    create_or_update_file, delete_file, create_branch, create_pull_request,
    get_issue_details]]: an invocation names one of them and gives its
    arguments; the result is a string, or a list of strings for the
    repository listing. *)
Inductive invocation : Type :=
| ListMyRepositories
| ListRepositoryFiles (repo_name : string)
| ReadFile (repo_name file_path : string)
| CreateOrUpdateFile (repo_name file_path content commit_message : string)
| DeleteFile (repo_name file_path commit_message : string)
| CreateBranch (repo_name branch_name : string)
| CreatePullRequest (repo_name title body head_branch : string)
| GetIssueDetails (repo_name : string) (issue_number : Z).

Inductive tool_result : Type :=
| Text (s : string)
| Items (l : list string).

Definition returning {A B} (f : A -> B) (m : M A) : M B := a ← m; mret (f a).

Definition invoke (i : invocation) : M tool_result :=
  match i with
  | ListMyRepositories => returning Items list_my_repositories
  | ListRepositoryFiles r => returning Text (list_repository_files r)
  | ReadFile r p => returning Text (read_file r p)
  | CreateOrUpdateFile r p c m => returning Text (create_or_update_file r p c m)
  | DeleteFile r p m => returning Text (delete_file r p m)
  | CreateBranch r b => returning Text (create_branch r b)
  | CreatePullRequest r t b h => returning Text (create_pull_request r t b h)
  | GetIssueDetails r n => returning Text (get_issue_details r n)
  end.

End Tools.

Arguments world R : clear implicits.
Arguments M R A : clear implicits.

End GithubTools.

(* ===================================================================== *)
(** * An in-memory platform *)
(* ===================================================================== *)

(** A small stand-in for the hosted platform, used to run the tools on
    concrete repositories: tokens with or without write permission,
    repositories with the tree of their default branch, branches, pull
    requests and issues. The theorems about the tools hold for every
    [Remote]; this one supplies the concrete cases. *)
Module MemHub.
Import GithubTools.

Record entry : Type :=
  { entry_path : string; entry_type : string; entry_bytes : string }.

Record repo_state : Type := {
  rs_default_branch : string;
  rs_entries : list entry;
  rs_branches : list string;
  rs_pulls : list string;
  rs_issues : list (Z * Issue)
}.

Record hub_state : Type := {
  hs_tokens : list (string * bool);
  hs_repos : list (string * repo_state)
}.

Definition assoc {A} (k : string) (l : list (string * A)) : option A :=
  snd <$> List.find (fun kv => String.eqb (fst kv) k) l.

Definition failure {A} (msg : string) (h : hub_state) : outcome A * hub_state :=
  (Raise (GithubException msg), h).

Definition may_read (g : Github) (h : hub_state) : bool :=
  bool_decide (is_Some (assoc (auth_token g) (hs_tokens h))).

Definition may_write (g : Github) (h : hub_state) : bool :=
  bool_decide (assoc (auth_token g) (hs_tokens h) = Some true).

Definition set_repo (name : string) (rs : repo_state) (h : hub_state) : hub_state :=
  {| hs_tokens := hs_tokens h;
     hs_repos := (fun kv => if String.eqb (fst kv) name then (name, rs) else kv)
                   <$> hs_repos h |}.

Definition with_entries (rs : repo_state) (es : list entry) : repo_state :=
  {| rs_default_branch := rs_default_branch rs; rs_entries := es;
     rs_branches := rs_branches rs; rs_pulls := rs_pulls rs;
     rs_issues := rs_issues rs |}.

Definition find_entry (path : string) (rs : repo_state) : option entry :=
  List.find (fun e => String.eqb (entry_path e) path) (rs_entries rs).

Definition sha_of (bytes : string) : string := "sha:" ++ bytes.

Definition as_repository (kv : string * repo_state) : Repository :=
  {| full_name := fst kv; default_branch := rs_default_branch (snd kv) |}.

(** Reading needs a known token, a known repository and the default
    branch as reference. *)
Definition reading {A} (g : Github) (repo : Repository) (ref : string)
    (k : repo_state -> outcome A * hub_state) (h : hub_state)
    : outcome A * hub_state :=
  if negb (may_read g h) then failure "401 Bad credentials" h else
  match assoc (full_name repo) (hs_repos h) with
  | None => failure "404 Not Found" h
  | Some rs =>
      if String.eqb ref (rs_default_branch rs) then k rs
      else failure "404 No commit found for the ref" h
  end.

Definition writing {A} (g : Github) (repo : Repository) (ref : string)
    (k : repo_state -> outcome A * hub_state) (h : hub_state)
    : outcome A * hub_state :=
  reading g repo ref
    (fun rs => if may_write g h then k rs
               else failure "403 Resource not accessible by token" h) h.

#[export] Instance mem_remote : Remote hub_state := {
  client_get_user_repos g h :=
    if may_read g h then (Return (as_repository <$> hs_repos h), h)
    else failure "401 Bad credentials" h;
  client_get_repo g name h :=
    if negb (may_read g h) then failure "401 Bad credentials" h else
    match assoc name (hs_repos h) with
    | Some rs => (Return (as_repository (name, rs)), h)
    | None => failure "404 Not Found" h
    end;
  repo_get_git_tree g repo ref h :=
    reading g repo ref (fun rs =>
      (Return ((fun e => {| tree_path := entry_path e; tree_type := entry_type e |})
                 <$> rs_entries rs), h)) h;
  repo_get_contents g repo path ref h :=
    reading g repo ref (fun rs =>
      match find_entry path rs with
      | None => failure "404 Not Found" h
      | Some e =>
          if String.eqb (entry_type e) "blob" then
            (Return (CFile {| content_path := entry_path e;
                              content_sha := sha_of (entry_bytes e);
                              decoded_content := entry_bytes e |}), h)
          else (Return (CDir []), h)
      end) h;
  repo_update_file g repo path message content sha branch h :=
    writing g repo branch (fun rs =>
      match find_entry path rs with
      | Some e =>
          if String.eqb (entry_type e) "blob" && String.eqb sha (sha_of (entry_bytes e))
          then (Return tt,
                set_repo (full_name repo)
                  (with_entries rs
                     ((fun e' => if String.eqb (entry_path e') path
                                 then {| entry_path := path; entry_type := "blob";
                                         entry_bytes := content |}
                                 else e') <$> rs_entries rs)) h)
          else failure "409 sha does not match" h
      | None => failure "404 Not Found" h
      end) h;
  repo_create_file g repo path message content branch h :=
    writing g repo branch (fun rs =>
      match find_entry path rs with
      | Some _ => failure "422 Invalid request: sha was not supplied" h
      | None =>
          (Return tt,
           set_repo (full_name repo)
             (with_entries rs
                (rs_entries rs ++ [{| entry_path := path; entry_type := "blob";
                                      entry_bytes := content |}])) h)
      end) h;
  repo_delete_file g repo path message sha branch h :=
    writing g repo branch (fun rs =>
      match find_entry path rs with
      | Some e =>
          if String.eqb (entry_type e) "blob" && String.eqb sha (sha_of (entry_bytes e))
          then (Return tt,
                set_repo (full_name repo)
                  (with_entries rs
                     (List.filter (fun e' => negb (String.eqb (entry_path e') path))
                        (rs_entries rs))) h)
          else failure "409 sha does not match" h
      | None => failure "404 Not Found" h
      end) h;
  repo_get_branch g repo branch h :=
    reading g repo (default_branch repo) (fun rs =>
      if bool_decide (branch ∈ rs_branches rs)
      then (Return {| commit_sha := "tip:" ++ branch |}, h)
      else failure "404 Branch not found" h) h;
  repo_create_git_ref g repo ref sha h :=
    writing g repo (default_branch repo) (fun rs =>
      let name := String.substring 11 (String.length ref - 11) ref in
      if negb (String.prefix "refs/heads/" ref) || bool_decide (name ∈ rs_branches rs)
      then failure "422 Reference already exists" h
      else (Return tt,
            set_repo (full_name repo)
              {| rs_default_branch := rs_default_branch rs;
                 rs_entries := rs_entries rs;
                 rs_branches := rs_branches rs ++ [name];
                 rs_pulls := rs_pulls rs; rs_issues := rs_issues rs |} h)) h;
  repo_create_pull g repo title body head base h :=
    writing g repo base (fun rs =>
      if bool_decide (head ∈ rs_branches rs) && negb (String.eqb head base)
      then
        let n := Z.of_nat (S (List.length (rs_pulls rs))) in
        (Return {| number := n;
                   html_url := "https://github.com/" ++ full_name repo
                                 ++ "/pull/" ++ str_int n |},
         set_repo (full_name repo)
           {| rs_default_branch := rs_default_branch rs;
              rs_entries := rs_entries rs; rs_branches := rs_branches rs;
              rs_pulls := rs_pulls rs ++ [head]; rs_issues := rs_issues rs |} h)
      else failure "422 Validation Failed" h) h;
  repo_get_issue g repo n h :=
    reading g repo (default_branch repo) (fun rs =>
      match List.find (fun kv => (fst kv =? n)%Z) (rs_issues rs) with
      | Some kv => (Return (snd kv), h)
      | None => failure "404 Not Found" h
      end) h;
  decode_utf8 bytes := Return bytes
}.

(** A repository with two files and a directory, one issue, and two
    tokens: [rw-token] may write, [ro-token] may only read. *)
Definition widgets : repo_state := {|
  rs_default_branch := "main";
  rs_entries :=
    [ {| entry_path := "README.md"; entry_type := "blob"; entry_bytes := "Hello" |};
      {| entry_path := "src"; entry_type := "tree"; entry_bytes := "" |};
      {| entry_path := "src/main.py"; entry_type := "blob";
         entry_bytes := "print(1)" |} ];
  rs_branches := ["main"; "fix/issue-42"];
  rs_pulls := [];
  rs_issues := [(42%Z, {| title := "Crash on start"; body := None |})]
|}.

Definition acme : hub_state := {|
  hs_tokens := [("rw-token", true); ("ro-token", false)];
  hs_repos := [("acme/widgets", widgets)]
|}.

(** The process before any token is set, and after [token] is. *)
Definition fresh : world hub_state := {|
  github_client := None; environ := ∅; hub := acme; calls := []; stdout := []
|}.

Definition connected (token : string) : world hub_state :=
  snd (set_github_token (Some token) fresh).

End MemHub.

(* ===================================================================== *)
(** * api.py *)
(* ===================================================================== *)

Module Api.
Import GithubTools.

(** [user_sessions = {}]: session id to access token, where the stored
    value may be [None]. *)
Abbreviation sessions := (gmap string (option string)).

(** [d.get(k)]: the stored value, [None] when the key is absent. *)
Definition dict_get (k : string) (d : sessions) : option string :=
  match d !! k with
  | Some v => v
  | None => None
  end.

Definition get_github_client (session_id : string) (user_sessions : sessions)
    : outcome Github :=
  let access_token := dict_get session_id user_sessions in
  if negb (truthy_opt access_token)
  then Raise (HTTPException 401 "User not authenticated.")
  else Return {| auth_token := str_opt access_token |}.

(** What an endpoint hands to the framework. *)
Inductive response : Type :=
| Json (body : json)
| Redirect (url : string).

(** The status line the framework sends: 200 for a returned body, 307 for
    a [RedirectResponse], the exception's own code for an [HTTPException]
    that leaves the endpoint, 500 for any other exception. *)
Definition http_status (o : outcome response) : Z :=
  match o with
  | Return (Json _) => 200
  | Return (Redirect _) => 307
  | Raise (HTTPException c _) => c
  | Raise _ => 500
  end.

(** [GET /callback]. [access_token] is [response_json.get("access_token")]
    of the token exchange, [session_id] the value of
    [os.urandom(24).hex()]. *)
Definition github_callback (access_token : option string) (session_id : string)
    (user_sessions : sessions) : response * sessions :=
  (Redirect ("http://localhost:8501?session_id=" ++ session_id),
   <[session_id := access_token]> user_sessions).

Definition status_message (status message : string) : json :=
  JObj [("status", JStr status); ("message", JStr message)].

(** [POST /logout]. *)
Definition logout (session_id : string) (user_sessions : sessions)
    : response * sessions :=
  if bool_decide (is_Some (user_sessions !! session_id))
  then (Json (status_message "success" "Logged out successfully."),
        delete session_id user_sessions)
  else (Json (status_message "error" "Session not found."), user_sessions).

Section Endpoints.
Context {R : Type} `{Remote R}.

(** [run_agent(goal, github_client)]: the agent run, which belongs to the
    execution framework; it returns the dictionary of output and logs, or
    raises. *)
Variable run_agent : string -> Github -> R -> outcome json * R.

(** [POST /user/repos]: [except Exception] catches everything. *)
Definition get_user_repos (session_id : string) (user_sessions : sessions)
    (h : R) : outcome response * R :=
  match get_github_client session_id user_sessions with
  | Raise e => (Return (Json (status_message "error" (str_exn e))), h)
  | Return github_client =>
      match client_get_user_repos github_client h with
      | (Return repos, h') =>
          let repo_list := full_name <$> repos in
          (Return (Json (JObj [("status", JStr "success");
                               ("repos", JList (JStr <$> repo_list))])), h')
      | (Raise e, h') =>
          (Return (Json (status_message "error" (str_exn e))), h')
      end
  end.

(** [except HTTPException as e: return {...}]; other exceptions pass. *)
Definition except_http (o : outcome response) : outcome response :=
  match o with
  | Raise (HTTPException _ detail) =>
      Return (Json (status_message "error" detail))
  | _ => o
  end.

(** [POST /run-agent]. *)
Definition run_agent_endpoint (session_id goal : string)
    (user_sessions : sessions) (h : R) : outcome response * R :=
  match get_github_client session_id user_sessions with
  | Raise e => (except_http (Raise e), h)
  | Return github_client =>
      match run_agent goal github_client h with
      | (Return result, h') =>
          (Return (Json (JObj [("status", JStr "success"); ("result", result)])),
           h')
      | (Raise e, h') => (except_http (Raise e), h')
      end
  end.

End Endpoints.
End Api.

(* ===================================================================== *)
(** * app.py *)
(* ===================================================================== *)

Module App.

Definition indent : string := "                ".

(** The goal of the debug task: [goal_to_run] after the [debug] branch of
    the task form, [None] when the condition of the branch fails.
    [selected_repo] is the selection of the sidebar, [None] when nothing is
    selected. *)
Definition debug_goal (issue_number : Z) (user_guidance : string)
    (selected_repo : option string) : option string :=
  let guidance :=
    if truthy_str user_guidance then user_guidance else "None provided." in
  if truthy_int issue_number && truthy_opt selected_repo then
    Some (join LF [
    "";
    indent
      ++ "You are an expert AI software developer. Your task is to "
      ++ "debug and fix issue #"
      ++ str_int issue_number
      ++ " in the repo '"
      ++ str_opt selected_repo
      ++ "'.";
    indent
      ++ "User guidance: '"
      ++ guidance
      ++ "'";
    "";
    indent
      ++ "Follow these steps precisely:";
    indent
      ++ "1. **Understand the Bug:** Use the `get_issue_details` tool "
      ++ "for issue #"
      ++ str_int issue_number
      ++ " to understand the problem.";
    indent
      ++ "2. **Create a Branch:** Create a new branch named exactly "
      ++ "'fix/issue-"
      ++ str_int issue_number
      ++ "'.";
    indent
      ++ "3. **Explore the Code:** Use `list_repository_files` to see "
      ++ "the repository structure. Based on the issue details and user "
      ++ "guidance, use `read_file` to examine the contents of the most "
      ++ "relevant file(s).";
    indent
      ++ "4. **Implement the Fix:** Once you have analyzed the code, "
      ++ "use the `create_or_update_file` tool to apply the necessary "
      ++ "code changes to the relevant file. The commit message for "
      ++ "this change MUST be 'fix: Resolve issue #"
      ++ str_int issue_number
      ++ "'.";
    indent
      ++ "5. **Create a Pull Request:** After committing the fix, "
      ++ "create a pull request to merge the 'fix/issue-"
      ++ str_int issue_number
      ++ "' branch into the main branch. The title of the pull request "
      ++ "MUST be 'Fix: Resolve issue #"
      ++ str_int issue_number
      ++ "'.";
    indent
      ++ "6. **Final Answer:** Your final answer must be a confirmation "
      ++ "message stating that the pull request has been created, "
      ++ "including the PR number and URL. If you fail at any step, "
      ++ "provide a clear reason for the failure.";
    indent ])
  else None.

End App.

(** The other task forms of [app.py]. *)
Module AppTasks.
Import App.

(** The goal of the feature task. *)
Definition feature_goal (feature_desc : string) (selected_repo : option string)
    : option string :=
  if truthy_str feature_desc && truthy_opt selected_repo then
    Some (join LF [
    "";
    indent
      ++ "You are an expert AI software developer. Your task is to "
      ++ "implement a new feature in the repo '"
      ++ str_opt selected_repo
      ++ "'.";
    indent
      ++ "Feature Description: '"
      ++ feature_desc
      ++ "'.";
    "";
    indent
      ++ "Follow these steps precisely:";
    indent
      ++ "1. **Create a Branch:** Create a new branch named 'feature/' "
      ++ "followed by a short, descriptive name based on the feature "
      ++ "description.";
    indent
      ++ "2. **Explore the Code:** Use `list_repository_files` to "
      ++ "analyze the existing file structure and decide where to best "
      ++ "implement the changes or add new files.";
    indent
      ++ "3. **Implement the Feature:** Use the `create_or_update_file` "
      ++ "tool to write the new code. The commit message for this "
      ++ "change MUST be a conventional commit message starting with "
      ++ "'feat:', for example: 'feat: Add user detail endpoint'.";
    indent
      ++ "4. **Create a Pull Request:** After committing the new "
      ++ "feature, create a pull request to merge the feature branch "
      ++ "into the main branch. The PR title and body must clearly "
      ++ "describe the new feature.";
    indent
      ++ "5. **Final Answer:** Your final answer must be a confirmation "
      ++ "message stating that the pull request has been created, "
      ++ "including the PR number and URL. If you fail at any step, "
      ++ "provide a clear reason for the failure.";
    indent ])
  else None.

Definition file_write_goal (file_path file_content commit_message : string)
    (selected_repo : option string) : option string :=
  if truthy_str file_path && truthy_str file_content
     && truthy_str commit_message && truthy_opt selected_repo
  then Some ("In the repository '" ++ str_opt selected_repo
               ++ "', create or update the file at path '" ++ file_path
               ++ "' with the provided content. Use the commit message: '"
               ++ commit_message ++ "'.")
  else None.

Definition file_read_goal (file_path_read : string)
    (selected_repo : option string) : option string :=
  if truthy_str file_path_read && truthy_opt selected_repo
  then Some ("In the repository '" ++ str_opt selected_repo
               ++ "', read the content of the file at path '" ++ file_path_read
               ++ "' and present it as your final answer.")
  else None.

Definition file_delete_goal (file_path_delete commit_msg_delete : string)
    (selected_repo : option string) : option string :=
  if truthy_str file_path_delete && truthy_str commit_msg_delete
     && truthy_opt selected_repo
  then Some ("In the repository '" ++ str_opt selected_repo
               ++ "', delete the file at path '" ++ file_path_delete
               ++ "'. Use the commit message: '" ++ commit_msg_delete ++ "'.")
  else None.

(** The task form: the task chosen, with the fields of its branch. *)
Inductive task : Type :=
| Feature (feature_desc : string)
| Debug (issue_number : Z) (user_guidance : string)
| FileWrite (file_path file_content commit_message : string)
| FileRead (file_path_read : string)
| FileDelete (file_path_delete commit_msg_delete : string).

(** [goal_to_run] when the form is left: [None] unless the branch of the
    task chosen built a goal. *)
Definition goal_to_run (t : task) (selected_repo : option string)
    : option string :=
  match t with
  | Feature d => feature_goal d selected_repo
  | Debug n g => debug_goal n g selected_repo
  | FileWrite p c m => file_write_goal p c m selected_repo
  | FileRead p => file_read_goal p selected_repo
  | FileDelete p m => file_delete_goal p m selected_repo
  end.

End AppTasks.

(* ===================================================================== *)
(** * Strings: prefixes and substrings *)
(* ===================================================================== *)

Module StringFacts.

Lemma append_assoc (a b c : string) : (a ++ b) ++ c = a ++ b ++ c.
Proof.
  induction a as [|x a IH]; [reflexivity|].
  change (String x ((a ++ b) ++ c) = String x (a ++ b ++ c)).
  now rewrite IH.
Qed.

Lemma append_nil_r (a : string) : a ++ "" = a.
Proof.
  induction a as [|x a IH]; [reflexivity|].
  change (String x (a ++ "") = String x a). now rewrite IH.
Qed.

Lemma startswith_app (p rest : string) : startswith p (p ++ rest).
Proof. now exists rest. Qed.

Lemma contains_here (p after : string) : contains p (p ++ after).
Proof. now exists "", after. Qed.

Lemma contains_app_r (p s t : string) : contains p t → contains p (s ++ t).
Proof.
  intros (b & a & ->). exists (s ++ b), a. now rewrite append_assoc.
Qed.

Lemma contains_app_l (p s t : string) : contains p s → contains p (s ++ t).
Proof.
  intros (b & a & ->). exists b, (a ++ t). now rewrite !append_assoc.
Qed.

Lemma contains_end (p s : string) : contains p (s ++ p).
Proof. apply contains_app_r. exists "", "". now rewrite append_nil_r. Qed.

Lemma contains_join (p sep x : string) (items : list string) :
  In x items → contains p x → contains p (join sep items).
Proof.
  induction items as [|y items IH]; simpl; [tauto|].
  intros [->|Hin] Hx.
  - destruct items; [assumption | now apply contains_app_l].
  - destruct items as [|z items]; [destruct Hin|].
    apply contains_app_r, contains_app_r, IH; assumption.
Qed.

Lemma starts_with_sound (p s : string) :
  starts_with p s = true → startswith p s.
Proof.
  revert s. induction p as [|a p IH]; intros s; simpl.
  - intros _. now exists s.
  - destruct s as [|b s]; [discriminate|].
    destruct (Ascii.eqb_spec a b) as [->|]; [|discriminate].
    intros Hp. destruct (IH _ Hp) as [rest ->]. now exists rest.
Qed.

Lemma occurs_in_sound (p s : string) : occurs_in p s = true → contains p s.
Proof.
  induction s as [|b s IH]; simpl.
  - rewrite orb_false_r. intros Hp.
    destruct (starts_with_sound _ _ Hp) as [rest ->]. apply contains_here.
  - intros [Hp|Hs]%orb_true_iff.
    + destruct (starts_with_sound _ _ Hp) as [rest ->]. apply contains_here.
    + apply (contains_app_r p (String b "") s), IH, Hs.
Qed.

End StringFacts.

(* ===================================================================== *)
(** * The tools of github_tools.py *)
(* ===================================================================== *)

Module ToolFacts.
Import GithubTools StringFacts.

Section Facts.
Context {R : Type} `{Remote R}.
Implicit Types (w : world R) (g : Github) (e : exn).

(** No credential is configured: the global client is unset and the
    environment holds no token. *)
Definition unconfigured w : Prop :=
  github_client w = None ∧ truthy_opt (environ w !! "GITHUB_PAT") = false.

(** The client [_ensure_client] settles on, if any. *)
Definition resolve w : option Github :=
  match github_client w with
  | Some g => Some g
  | None =>
      if truthy_opt (environ w !! "GITHUB_PAT")
      then Some {| auth_token := str_opt (environ w !! "GITHUB_PAT") |}
      else None
  end.

Definition with_client (c : option Github) w : world R :=
  {| github_client := c; environ := environ w; hub := hub w;
     calls := calls w; stdout := stdout w |}.

Lemma ensure_client_eq w :
  _ensure_client w =
  match resolve w with
  | Some g => (Return g, with_client (Some g) w)
  | None => (Raise (RuntimeError not_configured), w)
  end.
Proof.
  destruct w as [c env h cs out]. unfold resolve, with_client; simpl.
  destruct c as [g|]; [reflexivity|].
  unfold _ensure_client, _init_client_from_env, getenv, get_client, put_client,
    mbind, M_bind, mret, M_ret; simpl.
  destruct (truthy_opt (env !! "GITHUB_PAT")); reflexivity.
Qed.

Lemma resolve_unconfigured w : unconfigured w → resolve w = None.
Proof. intros [Hc He]. unfold resolve. now rewrite Hc, He. Qed.

Lemma ensure_client_unconfigured w :
  unconfigured w → _ensure_client w = (Raise (RuntimeError not_configured), w).
Proof. intros Hw. now rewrite ensure_client_eq, resolve_unconfigured. Qed.

Lemma resolve_print line w : resolve (snd (print line w)) = resolve w.
Proof. reflexivity. Qed.

(** Every tool has the shape [print; try: client = _ensure_client(); ...
    except Exception as e: ...]. Without a credential the handler runs on
    the [RuntimeError], in the world the print left. *)
Lemma guarded_unconfigured {A} (k : Github → M R A) (handler : exn → M R A)
    line w :
  unconfigured w →
  (print line;; try_except (_ensure_client ≫= k) handler) w
  = handler (RuntimeError not_configured) (snd (print line w)).
Proof.
  intros Hw. unfold mbind at 1, M_bind at 1.
  change (print line w) with (Return tt, snd (print line w)). cbv beta iota.
  unfold try_except, mbind, M_bind.
  rewrite ensure_client_eq, resolve_print, resolve_unconfigured by assumption.
  reflexivity.
Qed.

(** With a credential the body runs with the resolved client; the world
    it starts in differs from [w] only by the line printed and the client
    stored. *)
Lemma guarded_configured {A} (k : Github → M R A) (handler : exn → M R A)
    line w g :
  resolve w = Some g →
  (print line;; try_except (_ensure_client ≫= k) handler) w
  = try_except (k g) handler (with_client (Some g) (snd (print line w))).
Proof.
  intros Hg. unfold mbind at 1, M_bind at 1.
  change (print line w) with (Return tt, snd (print line w)). cbv beta iota.
  unfold try_except, mbind, M_bind.
  rewrite ensure_client_eq, resolve_print, Hg. reflexivity.
Qed.

Lemma resolve_of_ensure w g :
  fst (_ensure_client w) = Return g → resolve w = Some g.
Proof.
  rewrite ensure_client_eq. destruct (resolve w); simpl; congruence.
Qed.

Lemma resolve_none_of_ensure w e :
  fst (_ensure_client w) = Raise e →
  resolve w = None ∧ e = RuntimeError not_configured.
Proof.
  rewrite ensure_client_eq. destruct (resolve w); simpl; [congruence|].
  intros [= <-]. now split.
Qed.

(** ** Invocations without a credential *)

Definition error_prefix (i : invocation) : string :=
  match i with
  | ListMyRepositories => "Error listing repositories: "
  | ListRepositoryFiles _ => "Error listing files: "
  | ReadFile _ _ => "Error reading file: "
  | CreateOrUpdateFile _ _ _ _ => "Error creating or updating file: "
  | DeleteFile _ _ _ => "Error deleting file: "
  | CreateBranch _ _ => "Error creating branch: "
  | CreatePullRequest _ _ _ _ => "Error creating pull request: "
  | GetIssueDetails _ _ => "Error getting issue details: "
  end.

(** What an invocation answers when the client check raised. *)
Definition authentication_failure (i : invocation) : tool_result :=
  match i with
  | ListMyRepositories => Items [error_prefix i ++ not_configured]
  | _ => Text (error_prefix i ++ not_configured)
  end.

Lemma returning_eq {A B} (f : A → B) (m : M R A) w :
  returning f m w =
  match m w with
  | (Return a, w') => (Return (f a), w')
  | (Raise e, w') => (Raise e, w')
  end.
Proof. reflexivity. Qed.

Ltac unguarded Hw :=
  rewrite !returning_eq, !(guarded_unconfigured _ _ _ _ Hw);
  repeat split; reflexivity.

(** C5. For every tool invocation, when no credential is configured (no
    client is set and the environment holds no token) the client check
    raises its authentication error, the invocation answers with that
    error, and no remote call is made: the log of remote calls and the
    remote platform are as they were. *)
Theorem no_remote_call_without_credential (i : invocation) w :
  unconfigured w →
  fst (_ensure_client w) = Raise (RuntimeError not_configured)
  ∧ fst (invoke i w) = Return (authentication_failure i)
  ∧ calls (snd (invoke i w)) = calls w
  ∧ hub (snd (invoke i w)) = hub w.
Proof.
  intros Hw. split; [now rewrite ensure_client_unconfigured|].
  destruct i; unfold invoke.
  - unfold list_my_repositories. unguarded Hw.
  - unfold list_repository_files. unguarded Hw.
  - unfold read_file. unguarded Hw.
  - unfold create_or_update_file. unguarded Hw.
  - unfold delete_file. unguarded Hw.
  - unfold create_branch. unguarded Hw.
  - unfold create_pull_request. unguarded Hw.
  - unfold get_issue_details. unguarded Hw.
Qed.

(** ** The repository listing *)

Definition listing_error e : list string :=
  ["Error listing repositories: " ++ str_exn e].

Lemma list_my_repositories_result w :
  fst (list_my_repositories w) =
  Return
    match fst (_ensure_client w) with
    | Raise e => listing_error e
    | Return client =>
        match fst (client_get_user_repos client (hub w)) with
        | Return repos => full_name <$> repos
        | Raise e => listing_error e
        end
    end.
Proof.
  unfold list_my_repositories. rewrite (ensure_client_eq w).
  destruct (resolve w) as [g|] eqn:Hg.
  - rewrite (guarded_configured _ _ _ _ _ Hg).
    unfold try_except, mbind, M_bind, remote; simpl.
    destruct (client_get_user_repos g (hub w)) as [[repos|e] h]; reflexivity.
  - assert (Hw : unconfigured w).
    { unfold resolve in Hg. unfold unconfigured.
      destruct (github_client w); [discriminate|].
      destruct (truthy_opt _); [discriminate | now split]. }
    now rewrite (guarded_unconfigured _ _ _ _ Hw).
Qed.

(** C6. The repository listing never raises. When the remote call fails
    it returns a list of one element, an error description that starts
    with [Error]; when it succeeds it returns the full names of the
    repositories in the order the platform gave them. *)
Theorem list_my_repositories_fails_open w :
  raises (fst (list_my_repositories w)) = false
  ∧ (∀ client e, fst (_ensure_client w) = Return client →
       fst (client_get_user_repos client (hub w)) = Raise e →
       fst (list_my_repositories w)
         = Return ["Error listing repositories: " ++ str_exn e]
       ∧ startswith "Error" ("Error listing repositories: " ++ str_exn e))
  ∧ (∀ client repos, fst (_ensure_client w) = Return client →
       fst (client_get_user_repos client (hub w)) = Return repos →
       fst (list_my_repositories w) = Return (full_name <$> repos)).
Proof.
  rewrite list_my_repositories_result. split; [reflexivity|]. split.
  - intros client e -> ->. split; [reflexivity|].
    now exists (" listing repositories: " ++ str_exn e).
  - now intros client repos -> ->.
Qed.

Lemma unconfigured_of_resolve w : resolve w = None → unconfigured w.
Proof.
  unfold resolve, unconfigured. destruct (github_client w); [discriminate|].
  destruct (truthy_opt _); [discriminate | now split].
Qed.

(** ** Pull requests *)

Definition pull_request_created (pr : PullRequest) : string :=
  "Successfully created Pull Request #" ++ str_int (number pr)
    ++ ": " ++ html_url pr.

Definition pull_request_error e : string :=
  "Error creating pull request: " ++ str_exn e.

Lemma create_pull_request_result repo_name title body head_branch w :
  fst (create_pull_request repo_name title body head_branch w) =
  Return
    match fst (_ensure_client w) with
    | Raise e => pull_request_error e
    | Return client =>
        match client_get_repo client repo_name (hub w) with
        | (Raise e, _) => pull_request_error e
        | (Return repo, h) =>
            match fst (repo_create_pull client repo title body head_branch
                         (default_branch repo) h) with
            | Return pr => pull_request_created pr
            | Raise e => pull_request_error e
            end
        end
    end.
Proof.
  unfold create_pull_request. rewrite (ensure_client_eq w).
  destruct (resolve w) as [g|] eqn:Hg.
  - rewrite (guarded_configured _ _ _ _ _ Hg).
    unfold try_except, mbind, M_bind, remote; simpl.
    destruct (client_get_repo g repo_name (hub w)) as [[repo|e] h];
      [|reflexivity]; simpl.
    destruct (repo_create_pull g repo title body head_branch
                (default_branch repo) h) as [[pr|e] h']; reflexivity.
  - now rewrite (guarded_unconfigured _ _ _ _ (unconfigured_of_resolve _ Hg)).
Qed.

Lemma pull_request_created_contains (pr : PullRequest) :
  contains (str_int (number pr)) (pull_request_created pr)
  ∧ contains (html_url pr) (pull_request_created pr).
Proof.
  unfold pull_request_created. split.
  - apply contains_app_r, contains_here.
  - apply contains_app_r, contains_app_r, contains_app_r.
    exists "", "". now rewrite append_nil_r.
Qed.

(** C7. The pull-request tool never raises. Its result either starts
    with [Error creating pull request:] or is the success message of a pull
    request, which contains the number and the URL of that pull request.
    Every failure gives the error string of that failure: of the client
    check, of the repository lookup, and of the remote creation (a head
    branch that does not exist, for one). When all three succeed the
    result is the success message of the pull request created, with its
    number and its URL in it. *)
Theorem create_pull_request_never_raises repo_name title body head_branch w :
  (∃ s, fst (create_pull_request repo_name title body head_branch w) = Return s
        ∧ (startswith "Error creating pull request: " s
           ∨ ∃ pr, s = pull_request_created pr
                   ∧ contains (str_int (number pr)) s
                   ∧ contains (html_url pr) s))
  ∧ (∀ e,
       fst (_ensure_client w) = Raise e →
       fst (create_pull_request repo_name title body head_branch w)
         = Return ("Error creating pull request: " ++ str_exn e))
  ∧ (∀ client e h,
       fst (_ensure_client w) = Return client →
       client_get_repo client repo_name (hub w) = (Raise e, h) →
       fst (create_pull_request repo_name title body head_branch w)
         = Return ("Error creating pull request: " ++ str_exn e))
  ∧ (∀ client repo h e,
       fst (_ensure_client w) = Return client →
       client_get_repo client repo_name (hub w) = (Return repo, h) →
       fst (repo_create_pull client repo title body head_branch
              (default_branch repo) h) = Raise e →
       fst (create_pull_request repo_name title body head_branch w)
         = Return ("Error creating pull request: " ++ str_exn e))
  ∧ (∀ client repo h pr,
       fst (_ensure_client w) = Return client →
       client_get_repo client repo_name (hub w) = (Return repo, h) →
       fst (repo_create_pull client repo title body head_branch
              (default_branch repo) h) = Return pr →
       fst (create_pull_request repo_name title body head_branch w)
         = Return ("Successfully created Pull Request #"
                     ++ str_int (number pr) ++ ": " ++ html_url pr)
       ∧ contains (str_int (number pr))
           ("Successfully created Pull Request #"
              ++ str_int (number pr) ++ ": " ++ html_url pr)
       ∧ contains (html_url pr)
           ("Successfully created Pull Request #"
              ++ str_int (number pr) ++ ": " ++ html_url pr)).
Proof.
  rewrite create_pull_request_result.
  split; [|split; [|split; [|split]]].
  - eexists; split; [reflexivity|].
    destruct (fst (_ensure_client w)) as [client|e];
      [|left; apply startswith_app].
    destruct (client_get_repo client repo_name (hub w)) as [[repo|e] h];
      [|left; apply startswith_app].
    destruct (fst (repo_create_pull _ _ _ _ _ _ _)) as [pr|e];
      [|left; apply startswith_app].
    right. exists pr. split; [reflexivity|].
    apply pull_request_created_contains.
  - now intros e ->.
  - now intros client e h -> ->.
  - now intros client repo h e -> -> ->.
  - intros client repo h pr -> -> ->. split; [reflexivity|].
    apply (pull_request_created_contains pr).
Qed.

(** ** The file listing *)

Definition blob_paths (tree : list GitTreeElement) : list string :=
  tree_path <$> List.filter is_blob tree.

Lemma list_repository_files_result repo_name w :
  fst (list_repository_files repo_name w) =
  Return
    match fst (_ensure_client w) with
    | Raise e => "Error listing files: " ++ str_exn e
    | Return client =>
        match client_get_repo client repo_name (hub w) with
        | (Raise e, _) => "Error listing files: " ++ str_exn e
        | (Return repo, h) =>
            match fst (repo_get_git_tree client repo (default_branch repo) h) with
            | Return tree => join backslash_n (blob_paths tree)
            | Raise e => "Error listing files: " ++ str_exn e
            end
        end
    end.
Proof.
  unfold list_repository_files. rewrite (ensure_client_eq w).
  destruct (resolve w) as [g|] eqn:Hg.
  - rewrite (guarded_configured _ _ _ _ _ Hg).
    unfold try_except, mbind, M_bind, remote; simpl.
    destruct (client_get_repo g repo_name (hub w)) as [[repo|e] h];
      [|reflexivity]; simpl.
    destruct (repo_get_git_tree g repo (default_branch repo) h)
      as [[tree|e] h']; reflexivity.
  - now rewrite (guarded_unconfigured _ _ _ _ (unconfigured_of_resolve _ Hg)).
Qed.

(** The paths listed are those of the blobs of the tree, each once per
    blob entry and in tree order. *)
Lemma blob_paths_spec (tree : list GitTreeElement) (p : string) :
  In p (blob_paths tree) ↔
  ∃ element, In element tree ∧ tree_type element = "blob" ∧ tree_path element = p.
Proof.
  unfold blob_paths. rewrite in_map_iff. split.
  - intros (el & <- & [Hel Hb]%filter_In). exists el.
    unfold is_blob in Hb. apply String.eqb_eq in Hb. auto.
  - intros (el & Hel & Hb & <-). exists el. split; [reflexivity|].
    apply filter_In. split; [assumption|]. unfold is_blob.
    now apply String.eqb_eq.
Qed.

(** ** Writing a file *)

Definition file_created (file_path : string) : string :=
  "Successfully created file '" ++ file_path ++ "'.".

Definition file_updated (file_path : string) : string :=
  "Successfully updated file '" ++ file_path ++ "'.".

Definition write_error e : string :=
  "Error creating or updating file: " ++ str_exn e.

(** The creation branch, entered from the handler of the inner [try]. *)
Definition create_result client repo file_path content commit_message (h : R)
    : string :=
  match fst (repo_create_file client repo file_path commit_message content
               (default_branch repo) h) with
  | Return _ => file_created file_path
  | Raise e => write_error e
  end.

Lemma create_or_update_file_result repo_name file_path content commit_message w :
  fst (create_or_update_file repo_name file_path content commit_message w) =
  Return
    match fst (_ensure_client w) with
    | Raise e => write_error e
    | Return client =>
        match client_get_repo client repo_name (hub w) with
        | (Raise e, _) => write_error e
        | (Return repo, h) =>
            match repo_get_contents client repo file_path
                    (default_branch repo) h with
            | (Raise _, h1) | (Return (CDir _), h1) =>
                create_result client repo file_path content commit_message h1
            | (Return (CFile f), h1) =>
                match repo_update_file client repo (content_path f)
                        commit_message content (content_sha f)
                        (default_branch repo) h1 with
                | (Return _, _) => file_updated file_path
                | (Raise _, h2) =>
                    create_result client repo file_path content
                      commit_message h2
                end
            end
        end
    end.
Proof.
  unfold create_or_update_file, create_result. rewrite (ensure_client_eq w).
  destruct (resolve w) as [g|] eqn:Hg.
  - rewrite (guarded_configured _ _ _ _ _ Hg).
    unfold try_except, mbind, M_bind, remote; simpl.
    destruct (client_get_repo g repo_name (hub w)) as [[repo|e] h];
      [|reflexivity]; simpl.
    destruct (repo_get_contents g repo file_path (default_branch repo) h)
      as [[[f|entries]|e] h1]; simpl.
    + destruct (repo_update_file g repo (content_path f) commit_message
                  content (content_sha f) (default_branch repo) h1)
        as [[u|e] h2]; simpl; [reflexivity|].
      destruct (repo_create_file g repo file_path commit_message content
                  (default_branch repo) h2) as [[u|e'] h3]; reflexivity.
    + destruct (repo_create_file g repo file_path commit_message content
                  (default_branch repo) h1) as [[u|e'] h3]; reflexivity.
    + destruct (repo_create_file g repo file_path commit_message content
                  (default_branch repo) h1) as [[u|e'] h3]; reflexivity.
  - now rewrite (guarded_unconfigured _ _ _ _ (unconfigured_of_resolve _ Hg)).
Qed.

Lemma created_is_not_updated (file_path : string) :
  file_created file_path ≠ file_updated file_path.
Proof. unfold file_created, file_updated. cbv [append]. discriminate. Qed.

Lemma success_is_not_error (file_path : string) e :
  file_created file_path ≠ write_error e
  ∧ file_updated file_path ≠ write_error e.
Proof.
  unfold file_created, file_updated, write_error.
  split; cbv [append]; discriminate.
Qed.

Lemma create_result_cases client repo file_path content commit_message h :
  create_result client repo file_path content commit_message h
    = file_created file_path
  ∨ ∃ e, create_result client repo file_path content commit_message h
           = write_error e.
Proof.
  unfold create_result. destruct (fst (repo_create_file _ _ _ _ _ _ _));
    [now left | right; now eexists].
Qed.

(** C1, as the code has it. Every call of the write-file tool returns
    one string, which is the created message, the updated message or an
    error string; the three are different strings, so no call returns both
    the created and the updated result. Which one it is: a client check
    or a repository lookup that fails gives the error string of that
    failure. With both resolved, a lookup of the path that finds a file
    leads to an update, and an accepted update gives the updated message.
    A lookup that raises, a lookup that returns a directory listing and a
    refused update each lead to a creation: an accepted creation gives the
    created message, a refused one the error string of the refusal. *)
Theorem create_or_update_file_outcomes
    repo_name file_path content commit_message w :
  let run :=
    fst (create_or_update_file repo_name file_path content commit_message w) in
  let created := Return ("Successfully created file '" ++ file_path ++ "'.") in
  let updated := Return ("Successfully updated file '" ++ file_path ++ "'.") in
  let failed e := Return ("Error creating or updating file: " ++ str_exn e) in
  (∃ s, run = Return s
        ∧ (s = file_created file_path ∨ s = file_updated file_path
           ∨ ∃ e, s = "Error creating or updating file: " ++ str_exn e))
  ∧ file_created file_path ≠ file_updated file_path
  ∧ (∀ e, file_created file_path ≠ "Error creating or updating file: " ++ str_exn e
          ∧ file_updated file_path ≠ "Error creating or updating file: " ++ str_exn e)
  ∧ (∀ e, fst (_ensure_client w) = Raise e → run = failed e)
  ∧ (∀ client e h,
       fst (_ensure_client w) = Return client →
       client_get_repo client repo_name (hub w) = (Raise e, h) →
       run = failed e)
  ∧ (∀ client repo h,
       fst (_ensure_client w) = Return client →
       client_get_repo client repo_name (hub w) = (Return repo, h) →
       let lookup :=
         repo_get_contents client repo file_path (default_branch repo) h in
       let create :=
         repo_create_file client repo file_path commit_message content
           (default_branch repo) in
       let creation h' :=
         (∀ u h'', create h' = (Return u, h'') → run = created)
         ∧ (∀ e h'', create h' = (Raise e, h'') → run = failed e) in
       (∀ e h1, lookup = (Raise e, h1) → creation h1)
       ∧ (∀ entries h1, lookup = (Return (CDir entries), h1) → creation h1)
       ∧ (∀ f h1, lookup = (Return (CFile f), h1) →
            let update :=
              repo_update_file client repo (content_path f) commit_message
                content (content_sha f) (default_branch repo) h1 in
            (∀ u h2, update = (Return u, h2) → run = updated)
            ∧ (∀ e h2, update = (Raise e, h2) → creation h2))).
Proof.
  cbv zeta. rewrite create_or_update_file_result.
  split; [|split; [apply created_is_not_updated|split;
                   [intros e; apply success_is_not_error|]]].
  - eexists; split; [reflexivity|].
    destruct (fst (_ensure_client w)) as [client|e]; [|right; right; now eexists].
    destruct (client_get_repo client repo_name (hub w)) as [[repo|e] h];
      [|right; right; now eexists].
    assert (Hc : ∀ h', create_result client repo file_path content
                         commit_message h' = file_created file_path
                       ∨ create_result client repo file_path content
                           commit_message h' = file_updated file_path
                       ∨ ∃ e, create_result client repo file_path content
                                commit_message h'
                              = "Error creating or updating file: " ++ str_exn e).
    { intros h'. destruct (create_result_cases client repo file_path content
                             commit_message h') as [->|[e ->]];
        [now left | right; right; now exists e]. }
    destruct (repo_get_contents _ _ _ _ _) as [[[f|entries]|e] h1];
      [|apply Hc|apply Hc].
    destruct (repo_update_file _ _ _ _ _ _ _ _) as [[u|e] h2];
      [right; now left | apply Hc].
  - split; [now intros e ->|]. split; [now intros client e h -> ->|].
    intros client repo h -> ->.
    assert (Hcreate : ∀ h',
              (∀ u h'', repo_create_file client repo file_path commit_message
                          content (default_branch repo) h' = (Return u, h'') →
                        Return (create_result client repo file_path content
                                  commit_message h')
                        = Return (file_created file_path))
              ∧ (∀ e h'', repo_create_file client repo file_path commit_message
                            content (default_branch repo) h' = (Raise e, h'') →
                          Return (create_result client repo file_path content
                                    commit_message h')
                          = Return (write_error e))).
    { intros h'. unfold create_result. split; now intros ? ? ->. }
    split; [|split].
    + intros e h1 ->. apply Hcreate.
    + intros entries h1 ->. apply Hcreate.
    + intros f h1 ->. split.
      * now intros u h2 ->.
      * intros e h2 ->. apply Hcreate.
Qed.


End Facts.
End ToolFacts.

(* ===================================================================== *)
(** * The session store of api.py *)
(* ===================================================================== *)

Module ApiFacts.
Import GithubTools Api.

Definition unauthenticated : exn := HTTPException 401 "User not authenticated.".

(** A session without a usable credential: no entry, an entry holding
    [None], or an entry holding the empty string. *)
Definition no_credential (session_id : string) (user_sessions : sessions) : Prop :=
  truthy_opt (dict_get session_id user_sessions) = false.

Lemma dict_get_insert (k : string) (v : option string) (d : sessions) :
  dict_get k (<[k := v]> d) = v.
Proof. unfold dict_get. now rewrite lookup_insert_eq. Qed.

Lemma dict_get_absent (k : string) (d : sessions) :
  d !! k = None → dict_get k d = None.
Proof. unfold dict_get. now intros ->. Qed.

Lemma get_github_client_no_credential (k : string) (d : sessions) :
  no_credential k d → get_github_client k d = Raise unauthenticated.
Proof. unfold no_credential, get_github_client. now intros ->. Qed.

Lemma get_github_client_stored (k token : string) (d : sessions) :
  token ≠ "" → d !! k = Some (Some token) →
  get_github_client k d = Return {| auth_token := token |}.
Proof.
  intros Hne Hk. unfold get_github_client, dict_get. rewrite Hk.
  destruct token; [congruence | reflexivity].
Qed.

(** C10. For every state of the session store, [logout] with session id
    [s] removes exactly the entry of [s] when it is present, answering
    with status [success], and leaves every other entry as it was; when
    [s] is absent it answers with status [error] and the whole store is
    unchanged. *)
Theorem logout_removes_exactly (s : string) (user_sessions : sessions) :
  (is_Some (user_sessions !! s) →
     fst (logout s user_sessions)
       = Json (status_message "success" "Logged out successfully.")
     ∧ snd (logout s user_sessions) !! s = None
     ∧ ∀ k, k ≠ s → snd (logout s user_sessions) !! k = user_sessions !! k)
  ∧ (user_sessions !! s = None →
     fst (logout s user_sessions)
       = Json (status_message "error" "Session not found.")
     ∧ snd (logout s user_sessions) = user_sessions).
Proof.
  unfold logout. split.
  - intros Hin. rewrite bool_decide_eq_true_2 by assumption. simpl.
    split; [reflexivity|]. split; [apply lookup_delete_eq|].
    intros k Hk. now apply lookup_delete_ne.
  - intros Hout. rewrite bool_decide_eq_false_2; [now split|].
    rewrite Hout. now intros [? ?].
Qed.

Example logout_present :
  logout "s1" {[ "s1" := Some "tok1"; "s2" := Some "tok2" ]}
  = (Json (status_message "success" "Logged out successfully."),
     {[ "s2" := Some "tok2" ]}).
Proof. vm_compute. reflexivity. Qed.

(** C9. The OAuth callback stores an entry for the session id it drew
    even when the token exchange gave no access token: the entry holds
    [None], the other sessions are untouched, the caller is redirected with
    that id, and resolving the id fails as unauthenticated. *)
Theorem callback_without_token_is_unusable (session_id : string)
    (user_sessions : sessions) :
  let after := snd (github_callback None session_id user_sessions) in
  after !! session_id = Some None
  ∧ (∀ k, k ≠ session_id → after !! k = user_sessions !! k)
  ∧ fst (github_callback None session_id user_sessions)
      = Redirect ("http://localhost:8501?session_id=" ++ session_id)
  ∧ get_github_client session_id after = Raise unauthenticated.
Proof.
  cbv zeta. unfold github_callback; simpl. split; [apply lookup_insert_eq|].
  split; [intros k Hk; now apply lookup_insert_ne|]. split; [reflexivity|].
  apply get_github_client_no_credential. unfold no_credential.
  now rewrite dict_get_insert.
Qed.

Section Endpoints.
Context {R : Type} `{Remote R}.
Variable run_agent : string → Github → R → outcome json * R.

(** C4, as the code has it. For a session id without a stored
    credential, [get_github_client] raises the unauthenticated exception,
    which carries the code 401, and both endpoints catch it at once: the
    agent is not run and the platform is not contacted, and the caller
    receives an ordinary response (status 200) whose body has status
    [error] and the failure as its message. *)
Theorem unauthenticated_surfaces_in_the_body (session_id goal : string)
    (user_sessions : sessions) (h : R) :
  no_credential session_id user_sessions →
  get_github_client session_id user_sessions
    = Raise (HTTPException 401 "User not authenticated.")
  ∧ run_agent_endpoint run_agent session_id goal user_sessions h
    = (Return (Json (status_message "error" "User not authenticated.")), h)
  ∧ get_user_repos session_id user_sessions h
    = (Return (Json (status_message "error" "401: User not authenticated.")), h)
  ∧ http_status (fst (run_agent_endpoint run_agent session_id goal user_sessions h))
    = 200%Z
  ∧ http_status (fst (get_user_repos session_id user_sessions h)) = 200%Z.
Proof.
  intros Hno. pose proof (get_github_client_no_credential _ _ Hno) as Hc.
  unfold run_agent_endpoint, get_user_repos. rewrite Hc.
  repeat split; reflexivity.
Qed.

End Endpoints.
End ApiFacts.

(* ===================================================================== *)
(** * The credential store across both front ends *)
(* ===================================================================== *)

Module CredentialStore.
Import GithubTools Api ToolFacts ApiFacts.

Lemma resolve_after_set {R} (token : string) (w : world R) :
  token ≠ "" →
  resolve (snd (set_github_token (Some token) w)) = Some {| auth_token := token |}.
Proof. destruct token; [congruence | reflexivity]. Qed.

Lemma unconfigured_after_clear {R} (w : world R) :
  unconfigured (snd (set_github_token None w)).
Proof.
  unfold unconfigured. split; [reflexivity|].
  change (environ (snd (set_github_token None w)))
    with (delete "GITHUB_PAT" (environ w)).
  now rewrite lookup_delete_eq.
Qed.

(** C3. In the session store of the API, resolving a session id that
    has no stored credential fails as unauthenticated; after a token is
    stored for the id, resolving the id yields a client holding exactly
    that token; after [None] is stored for the id, resolving fails as
    unauthenticated again. The token slot of the tool module behaves the
    same way under [set_github_token] and [_ensure_client]. A token is a
    non-empty string. *)
Theorem credential_store_contract {R} (session_id token : string)
    (user_sessions : sessions) (w : world R) :
  token ≠ "" →
  (dict_get session_id user_sessions = None →
     get_github_client session_id user_sessions
       = Raise (HTTPException 401 "User not authenticated."))
  ∧ get_github_client session_id
      (snd (github_callback (Some token) session_id user_sessions))
      = Return {| auth_token := token |}
  ∧ get_github_client session_id
      (snd (github_callback None session_id
              (snd (github_callback (Some token) session_id user_sessions))))
      = Raise (HTTPException 401 "User not authenticated.")
  ∧ (unconfigured w →
     fst (_ensure_client w) = Raise (RuntimeError not_configured))
  ∧ fst (_ensure_client (snd (set_github_token (Some token) w)))
      = Return {| auth_token := token |}
  ∧ fst (_ensure_client (snd (set_github_token None
                                (snd (set_github_token (Some token) w)))))
      = Raise (RuntimeError not_configured).
Proof.
  intros Hne. repeat split.
  - intros Hnone. apply get_github_client_no_credential.
    unfold no_credential. now rewrite Hnone.
  - apply get_github_client_stored; [assumption|].
    unfold github_callback; simpl. apply lookup_insert_eq.
  - apply get_github_client_no_credential. unfold no_credential, github_callback.
    simpl. now rewrite dict_get_insert.
  - intros Hw. now rewrite ensure_client_unconfigured.
  - now rewrite ensure_client_eq, resolve_after_set.
  - now rewrite ensure_client_unconfigured by apply unconfigured_after_clear.
Qed.

End CredentialStore.

(* ===================================================================== *)
(** * The debug task prompt of app.py *)
(* ===================================================================== *)

Module AppFacts.
Import App StringFacts.

(** C8. For the debug task with issue number 42, no user guidance and a
    repository selected, a goal is generated and it contains the literal
    texts [issue #42], [fix/issue-42] and [fix: Resolve issue #42]; the
    guidance line reads [None provided.]. *)
Theorem debug_goal_issue_42 (repo : string) :
  repo ≠ "" →
  ∃ goal, debug_goal 42 "" (Some repo) = Some goal
          ∧ contains "issue #42" goal
          ∧ contains "fix/issue-42" goal
          ∧ contains "fix: Resolve issue #42" goal
          ∧ contains "User guidance: 'None provided.'" goal.
Proof.
  intros Hrepo. destruct repo as [|a repo]; [congruence|].
  unfold debug_goal.
  cbn [truthy_int truthy_opt truthy_str andb negb Z.eqb].
  eexists; split; [reflexivity|].
  split; [|split; [|split]].
  - eapply contains_join; [do 5 right; left; reflexivity|].
    apply occurs_in_sound. vm_compute. reflexivity.
  - eapply contains_join; [do 6 right; left; reflexivity|].
    apply occurs_in_sound. vm_compute. reflexivity.
  - eapply contains_join; [do 8 right; left; reflexivity|].
    apply occurs_in_sound. vm_compute. reflexivity.
  - eapply contains_join; [do 2 right; left; reflexivity|].
    apply occurs_in_sound. vm_compute. reflexivity.
Qed.

Lemma debug_goal_issue_42_widgets :
  "acme/widgets" ≠ ""
  ∧ ∃ goal, debug_goal 42 "" (Some "acme/widgets") = Some goal
            ∧ contains "issue #42" goal
            ∧ contains "fix/issue-42" goal
            ∧ contains "fix: Resolve issue #42" goal
            ∧ contains "User guidance: 'None provided.'" goal.
Proof.
  split; [discriminate|]. apply (debug_goal_issue_42 "acme/widgets").
  discriminate.
Defined.

(** Without a repository selected no goal is built. *)
Example debug_goal_needs_repository : debug_goal 42 "" None = None.
Proof. reflexivity. Qed.

End AppFacts.

(* ===================================================================== *)
(** * Concrete runs on the in-memory platform *)
(* ===================================================================== *)

Module Scenarios.
Import GithubTools MemHub Api ToolFacts ApiFacts CredentialStore.

(** An agent run that answers at once, for the endpoint scenarios. *)
Definition idle_agent (goal : string) (client : Github) (h : hub_state)
    : outcome json * hub_state :=
  (Return (JObj [("output", JStr "done"); ("logs", JStr "")]), h).

Definition main_of_widgets : Repository :=
  {| full_name := "acme/widgets"; default_branch := "main" |}.

Example str_int_42 : str_int 42 = "42".
Proof. reflexivity. Qed.

Example join_two_lines : join LF ["a"; "b"] = "a" ++ LF ++ "b".
Proof. reflexivity. Qed.

(** ** Writing files *)

Example write_existing_file :
  fst (create_or_update_file "acme/widgets" "README.md" "Hi" "docs: greet"
         (connected "rw-token"))
  = Return "Successfully updated file 'README.md'.".
Proof. vm_compute. reflexivity. Qed.

Example write_new_file :
  fst (create_or_update_file "acme/widgets" "NEW.md" "Hi" "docs: add"
         (connected "rw-token"))
  = Return "Successfully created file 'NEW.md'.".
Proof. vm_compute. reflexivity. Qed.

(** C1 does not hold for every call. With the read-only token the file
    [README.md] exists and is found, yet the update is refused, the
    creation is then attempted and refused as well, and the result is an
    error string rather than the updated message. With no token set, the
    path [NEW.md] holds no file, and the result is an error string rather
    than the created message. *)
Lemma write_file_can_answer_with_an_error :
  (fst (repo_get_contents {| auth_token := "ro-token" |} main_of_widgets
          "README.md" "main" acme)
   = Return (CFile {| content_path := "README.md";
                      content_sha := "sha:Hello";
                      decoded_content := "Hello" |})
   ∧ fst (create_or_update_file "acme/widgets" "README.md" "Hi" "docs: greet"
            (connected "ro-token"))
     = Return "Error creating or updating file: 403 Resource not accessible by token"
   ∧ fst (create_or_update_file "acme/widgets" "README.md" "Hi" "docs: greet"
            (connected "ro-token"))
     ≠ Return "Successfully updated file 'README.md'."
   ∧ call_op <$> calls (snd (create_or_update_file "acme/widgets" "README.md"
                               "Hi" "docs: greet" (connected "ro-token")))
     = ["get_repo"; "get_contents"; "update_file"; "create_file"])
  ∧ (fst (repo_get_contents {| auth_token := "rw-token" |} main_of_widgets
            "NEW.md" "main" acme)
     = Raise (GithubException "404 Not Found")
     ∧ fst (create_or_update_file "acme/widgets" "NEW.md" "Hi" "docs: add" fresh)
       = Return ("Error creating or updating file: " ++ not_configured)
     ∧ fst (create_or_update_file "acme/widgets" "NEW.md" "Hi" "docs: add" fresh)
       ≠ Return "Successfully created file 'NEW.md'.").
Proof. vm_compute. repeat split; try reflexivity; discriminate. Qed.

(** ** Listing files *)

(** C2 at a repository with two files and a directory: the two blob
    paths are listed in tree order and the directory is left out, but
    they are joined by a backslash and the letter n, not by the newline
    character. *)
Lemma list_files_joins_with_backslash_n :
  fst (list_repository_files "acme/widgets" (connected "rw-token"))
  = Return ("README.md" ++ backslash_n ++ "src/main.py")
  ∧ "README.md" ++ backslash_n ++ "src/main.py"
    ≠ join LF ["README.md"; "src/main.py"]
  ∧ String.length ("README.md" ++ backslash_n ++ "src/main.py")
    = S (String.length (join LF ["README.md"; "src/main.py"])).
Proof. vm_compute. repeat split; [discriminate]. Qed.

Example list_files_unknown_repository :
  fst (list_repository_files "acme/nothing" (connected "rw-token"))
  = Return "Error listing files: 404 Not Found".
Proof. vm_compute. reflexivity. Qed.

(** ** Tools without a credential *)

Lemma read_file_without_credential :
  unconfigured fresh
  ∧ fst (_ensure_client fresh) = Raise (RuntimeError not_configured)
  ∧ fst (invoke (ReadFile "acme/widgets" "README.md") fresh)
    = Return (Text ("Error reading file: " ++ not_configured))
  ∧ calls (snd (invoke (ReadFile "acme/widgets" "README.md") fresh)) = []
  ∧ hub (snd (invoke (ReadFile "acme/widgets" "README.md") fresh)) = acme.
Proof.
  assert (Hw : unconfigured fresh) by (split; reflexivity).
  split; [exact Hw|].
  exact (no_remote_call_without_credential
           (ReadFile "acme/widgets" "README.md") fresh Hw).
Defined.

Example list_repositories_rejected_token :
  fst (list_my_repositories (connected "stale-token"))
  = Return ["Error listing repositories: 401 Bad credentials"].
Proof. vm_compute. reflexivity. Qed.

Example list_repositories_ok :
  fst (list_my_repositories (connected "ro-token")) = Return ["acme/widgets"].
Proof. vm_compute. reflexivity. Qed.

Example pull_request_ok :
  fst (create_pull_request "acme/widgets" "Fix: Resolve issue #42" "text"
         "fix/issue-42" (connected "rw-token"))
  = Return "Successfully created Pull Request #1: https://github.com/acme/widgets/pull/1".
Proof. vm_compute. reflexivity. Qed.

Example pull_request_missing_head :
  fst (create_pull_request "acme/widgets" "t" "text" "no-such-branch"
         (connected "rw-token"))
  = Return "Error creating pull request: 422 Validation Failed".
Proof. vm_compute. reflexivity. Qed.

(** ** The session store *)

Lemma credential_store_run :
  "tok1" ≠ ""
  ∧ get_github_client "s1" (snd (github_callback (Some "tok1") "s1" ∅))
    = Return {| auth_token := "tok1" |}
  ∧ get_github_client "s1"
      (snd (github_callback None "s1" (snd (github_callback (Some "tok1") "s1" ∅))))
    = Raise (HTTPException 401 "User not authenticated.")
  ∧ fst (_ensure_client (snd (set_github_token (Some "tok1") fresh)))
    = Return {| auth_token := "tok1" |}
  ∧ fst (_ensure_client (snd (set_github_token None
                                (snd (set_github_token (Some "tok1") fresh)))))
    = Raise (RuntimeError not_configured).
Proof.
  assert (Hne : "tok1" ≠ "") by discriminate.
  split; [exact Hne|].
  pose proof (credential_store_contract "s1" "tok1" ∅ fresh Hne)
    as (_ & Hset & Hclear & _ & Htool & Htool').
  repeat split; assumption.
Defined.

(** C4 does not hold as stated: for a session id the store does not
    know, both endpoints answer with an ordinary response, status 200 and
    not 401. *)
Lemma unknown_session_gets_status_200 :
  (http_status (fst (run_agent_endpoint idle_agent "nobody" "list files" ∅ acme))
   = 200%Z
   ∧ http_status (fst (get_user_repos "nobody" ∅ acme)) = 200%Z)
  ∧ http_status (fst (run_agent_endpoint idle_agent "nobody" "list files" ∅ acme))
    ≠ 401%Z
  ∧ http_status (fst (get_user_repos "nobody" ∅ acme)) ≠ 401%Z.
Proof. vm_compute. repeat split; discriminate. Qed.

Lemma unknown_session_body :
  no_credential "nobody" ∅
  ∧ run_agent_endpoint idle_agent "nobody" "list files" ∅ acme
    = (Return (Json (status_message "error" "User not authenticated.")), acme)
  ∧ get_user_repos "nobody" ∅ acme
    = (Return (Json (status_message "error" "401: User not authenticated.")), acme).
Proof.
  assert (Hno : no_credential "nobody" ∅) by reflexivity.
  split; [exact Hno|].
  pose proof (unauthenticated_surfaces_in_the_body idle_agent "nobody"
                "list files" ∅ acme Hno) as (_ & Hrun & Hrepos & _).
  split; assumption.
Defined.

Example known_session_runs_agent :
  http_status (fst (run_agent_endpoint idle_agent "s1" "list files"
                      {[ "s1" := Some "rw-token" ]} acme)) = 200%Z.
Proof. vm_compute. reflexivity. Qed.

End Scenarios.

(* ===================================================================== *)
(** * What the tools do to the process and to the call log *)
(* ===================================================================== *)

Module ToolEffects.
Import GithubTools ToolFacts.

Section Effects.
Context {R : Type} `{Remote R}.
Implicit Types (w : world R) (g : Github) (e : exn).

(** A computation that only adds remote calls made with the client [g],
    and leaves the environment and the stored client alone. *)
Definition calls_with g {A} (m : M R A) : Prop :=
  ∀ w, ∃ new,
    calls (snd (m w)) = (calls w ++ new)%list
    ∧ Forall (λ c, call_client c = g) new
    ∧ environ (snd (m w)) = environ w
    ∧ github_client (snd (m w)) = github_client w.

Lemma calls_with_quiet g {A} (m : M R A) :
  (∀ w, calls (snd (m w)) = calls w ∧ environ (snd (m w)) = environ w
        ∧ github_client (snd (m w)) = github_client w) →
  calls_with g m.
Proof.
  intros Hm w. destruct (Hm w) as (Hc & He & Hg). exists [].
  rewrite app_nil_r. auto.
Qed.

Lemma calls_with_ret g {A} (a : A) : calls_with g (mret a : M R A).
Proof. apply calls_with_quiet. now intros w. Qed.

Lemma calls_with_raise g {A} e : calls_with g (raise e : M R A).
Proof. apply calls_with_quiet. now intros w. Qed.

Lemma calls_with_lift g {A} (o : outcome A) : calls_with g (lift o : M R A).
Proof. apply calls_with_quiet. now intros w. Qed.

Lemma calls_with_print g line : calls_with g (print line : M R unit).
Proof. apply calls_with_quiet. now intros w. Qed.

Lemma calls_with_file_attr g {A} attr (proj : ContentFile → A) c :
  calls_with g (file_attr attr proj c : M R A).
Proof. destruct c; [apply calls_with_ret | apply calls_with_raise]. Qed.

Lemma calls_with_remote g {A} op args (f : R → outcome A * R) :
  calls_with g (remote (logged g op args) f).
Proof.
  intros w. exists [logged g op args]. unfold remote.
  destruct (f (hub w)) as [o h]. simpl. repeat split.
  now constructor.
Qed.

Lemma calls_with_bind g {A B} (m : M R A) (k : A → M R B) :
  calls_with g m → (∀ a, calls_with g (k a)) → calls_with g (m ≫= k).
Proof.
  intros Hm Hk w. destruct (Hm w) as (n1 & Hc1 & Hf1 & He1 & Hg1).
  unfold mbind, M_bind. destruct (m w) as [[a|e] w1]; simpl in *.
  - destruct (Hk a w1) as (n2 & Hc2 & Hf2 & He2 & Hg2).
    exists (n1 ++ n2)%list. rewrite Hc2, Hc1, He2, Hg2, app_assoc.
    repeat split; try assumption. now apply Forall_app.
  - exists n1. auto.
Qed.

Lemma calls_with_try g {A} (m : M R A) (handler : exn → M R A) :
  calls_with g m → (∀ e, calls_with g (handler e)) →
  calls_with g (try_except m handler).
Proof.
  intros Hm Hh w. destruct (Hm w) as (n1 & Hc1 & Hf1 & He1 & Hg1).
  unfold try_except. destruct (m w) as [[a|e] w1]; simpl in *.
  - exists n1. auto.
  - destruct (Hh e w1) as (n2 & Hc2 & Hf2 & He2 & Hg2).
    exists (n1 ++ n2)%list. rewrite Hc2, Hc1, He2, Hg2, app_assoc.
    repeat split; try assumption. now apply Forall_app.
Qed.

Ltac effects :=
  repeat first
    [ apply calls_with_ret | apply calls_with_raise | apply calls_with_lift
    | apply calls_with_print | apply calls_with_file_attr
    | apply calls_with_remote
    | apply calls_with_bind; [|intros ?]
    | apply calls_with_try; [|intros ?] ].

(** What a guarded tool does, from what its body does with the client. *)
Lemma guarded_effects {A} (k : Github → M R A) (f : exn → A) line w :
  (∀ g, calls_with g (k g)) →
  let after := snd ((print line;; try_except (_ensure_client ≫= k)
                                    (λ e, mret (f e))) w) in
  ∃ new,
    calls after = (calls w ++ new)%list
    ∧ Forall (λ c, fst (_ensure_client w) = Return (call_client c)) new
    ∧ environ after = environ w
    ∧ fst (_ensure_client after) = fst (_ensure_client w).
Proof.
  intros Hk after. subst after.
  destruct (resolve w) as [g|] eqn:Hg.
  - rewrite (guarded_configured _ _ _ _ _ Hg).
    destruct (calls_with_try g (k g) (λ e, mret (f e)) (Hk g)
                (λ e, calls_with_ret g (f e))
                (with_client (Some g) (snd (print line w))))
      as (new & Hc & Hf & He & Hcl).
    exists new. rewrite Hc, He. split; [reflexivity|].
    split; [|split; [reflexivity|]].
    + rewrite ensure_client_eq, Hg. simpl.
      eapply Forall_impl; [exact Hf|]. now intros c ->.
    + rewrite !ensure_client_eq, Hg. unfold resolve at 1. now rewrite Hcl.
  - pose proof (unconfigured_of_resolve _ Hg) as Hw.
    rewrite (guarded_unconfigured _ _ _ _ Hw). exists []. simpl.
    rewrite app_nil_r. split; [reflexivity|]. split; [constructor|].
    split; [reflexivity|]. rewrite !ensure_client_eq.
    unfold resolve; simpl. destruct (github_client w); [reflexivity|].
    destruct (truthy_opt _); reflexivity.
Qed.

Lemma returning_world {A B} (f : A → B) (m : M R A) w :
  snd (returning f m w) = snd (m w).
Proof. rewrite returning_eq. now destruct (m w) as [[a|e] w1]. Qed.

(** X1. Whatever tool is invoked, in whatever state: the log of remote
    calls only grows, every call added is made with the client that
    [_ensure_client] resolves, the environment is left as it was, and
    the client resolved afterwards is the same as before. *)
Theorem invoke_effects (i : invocation) w :
  ∃ new,
    calls (snd (invoke i w)) = (calls w ++ new)%list
    ∧ Forall (λ c, fst (_ensure_client w) = Return (call_client c)) new
    ∧ environ (snd (invoke i w)) = environ w
    ∧ fst (_ensure_client (snd (invoke i w))) = fst (_ensure_client w).
Proof.
  destruct i; unfold invoke; rewrite returning_world.
  - apply guarded_effects. intros g. effects.
  - apply guarded_effects. intros g. effects.
  - apply guarded_effects. intros g. effects.
  - apply guarded_effects. intros g. effects.
  - apply guarded_effects. intros g. effects.
  - apply guarded_effects. intros g. effects.
  - apply guarded_effects. intros g. effects.
  - apply guarded_effects. intros g. effects.
Qed.

(** A tool is a [try] whose handler returns: it cannot raise. *)
Lemma guarded_never_raises {A B} (wrap : A → B) (body : M R A) (f : exn → A)
    line w :
  raises (fst (returning wrap
                 (print line;; try_except body (λ e, mret (f e))) w)) = false.
Proof.
  rewrite returning_eq. unfold mbind at 1, M_bind at 1.
  change (print line w) with (Return tt, snd (print line w)). cbv beta iota.
  unfold try_except. destruct (body _) as [[a|e] w1]; reflexivity.
Qed.

(** X2. No invocation of any tool raises: every failure, of the client
    check, of the platform or of the decoding, comes back as a value. *)
Theorem invoke_never_raises (i : invocation) w :
  raises (fst (invoke i w)) = false.
Proof. destruct i; apply guarded_never_raises. Qed.

End Effects.
End ToolEffects.

(* ===================================================================== *)
(** * Outcomes and call sequences of the single tools *)
(* ===================================================================== *)

Module ToolOutcomes.
Import GithubTools ToolFacts.

Section Resolved.
Context {R : Type} `{Remote R}.

(** A state in which the client check yields [client] and the lookup of
    [repo_name] yields [repo], leaving the platform in state [h]. *)
Variables (w : world R) (client : Github) (repo_name : string)
          (repo : Repository) (h : R).
Hypothesis Hclient : fst (_ensure_client w) = Return client.
Hypothesis Hrepo : client_get_repo client repo_name (hub w) = (Return repo, h).

Let branch : string := default_branch repo.
Let get_repo_call : call := logged client "get_repo" [repo_name].

Ltac run_tool :=
  rewrite (guarded_configured _ _ _ _ _ (resolve_of_ensure _ _ Hclient));
  unfold try_except, mbind, M_bind, remote, file_attr, lift, raise, mret, M_ret;
  simpl; rewrite Hrepo; simpl.

Ltac step Heq := rewrite Heq; simpl.

Ltac done_log :=
  repeat split; try reflexivity; simpl; rewrite <- ?app_assoc; reflexivity.

(** X3. Which remote calls the write-file tool makes. Any failure of the
    lookup, whatever its cause, leads to one creation call for the path
    given. A file found leads to one update call for the path and the
    hash the lookup returned; if that update is accepted nothing else is
    called, and if it is refused a creation call for the path follows. *)
Theorem write_file_call_sequence (file_path content commit_message : string) :
  let lookup := logged client "get_contents" [file_path; branch] in
  let create :=
    logged client "create_file" [file_path; commit_message; content; branch] in
  let update f :=
    logged client "update_file"
      [content_path f; commit_message; content; content_sha f; branch] in
  let after :=
    snd (create_or_update_file repo_name file_path content commit_message w) in
  (∀ e h1,
     repo_get_contents client repo file_path branch h = (Raise e, h1) →
     calls after = (calls w ++ [get_repo_call; lookup; create])%list)
  ∧ (∀ f h1 u h2,
       repo_get_contents client repo file_path branch h = (Return (CFile f), h1) →
       repo_update_file client repo (content_path f) commit_message content
         (content_sha f) branch h1 = (Return u, h2) →
       calls after = (calls w ++ [get_repo_call; lookup; update f])%list
       ∧ hub after = h2)
  ∧ (∀ f h1 e h2,
       repo_get_contents client repo file_path branch h = (Return (CFile f), h1) →
       repo_update_file client repo (content_path f) commit_message content
         (content_sha f) branch h1 = (Raise e, h2) →
       calls after
       = (calls w ++ [get_repo_call; lookup; update f; create])%list).
Proof.
  cbv zeta. unfold create_or_update_file, branch, get_repo_call.
  split; [|split].
  - intros e h1 Hlookup. run_tool. step Hlookup.
    destruct (repo_create_file _ _ _ _ _ _ _) as [[u|e'] h2]; done_log.
  - intros f h1 u h2 Hlookup Hupdate. run_tool. step Hlookup. step Hupdate.
    done_log.
  - intros f h1 e h2 Hlookup Hupdate. run_tool. step Hlookup. step Hupdate.
    destruct (repo_create_file _ _ _ _ _ _ _) as [[u|e'] h3]; done_log.
Qed.

(** X4. The delete tool. When the lookup of the path fails the result
    is the error string of that failure and no deletion is requested: the
    platform is left as the lookup left it. When the lookup finds a file
    and the deletion, requested with the hash just fetched, is accepted,
    the result names the path. A directory cannot be deleted: the result
    is the error of reading [path] off a list. *)
Theorem delete_file_outcomes (file_path commit_message : string) :
  let lookup := logged client "get_contents" [file_path; branch] in
  let run := delete_file repo_name file_path commit_message w in
  (∀ e h1,
     repo_get_contents client repo file_path branch h = (Raise e, h1) →
     fst run = Return ("Error deleting file: " ++ str_exn e)
     ∧ calls (snd run) = (calls w ++ [get_repo_call; lookup])%list
     ∧ hub (snd run) = h1)
  ∧ (∀ f h1 u h2,
       repo_get_contents client repo file_path branch h = (Return (CFile f), h1) →
       repo_delete_file client repo (content_path f) commit_message
         (content_sha f) branch h1 = (Return u, h2) →
       fst run = Return ("Successfully deleted file '" ++ file_path ++ "'.")
       ∧ hub (snd run) = h2)
  ∧ (∀ entries h1,
       repo_get_contents client repo file_path branch h
         = (Return (CDir entries), h1) →
       fst run
         = Return "Error deleting file: 'list' object has no attribute 'path'"
       ∧ hub (snd run) = h1).
Proof.
  cbv zeta. unfold delete_file, branch, get_repo_call. split; [|split].
  - intros e h1 Hlookup. run_tool. step Hlookup. done_log.
  - intros f h1 u h2 Hlookup Hdelete. run_tool. step Hlookup. step Hdelete.
    done_log.
  - intros entries h1 Hlookup. run_tool. step Hlookup. done_log.
Qed.

(** X5. The read tool returns the decoded bytes of the file found. A
    path that is a directory, a lookup that fails and bytes that do not
    decode each give a string that starts with [Error reading file:]. *)
Theorem read_file_outcomes (file_path : string) :
  let run := read_file repo_name file_path w in
  (∀ f h1 text,
     repo_get_contents client repo file_path branch h = (Return (CFile f), h1) →
     decode_utf8 (decoded_content f) = Return text →
     fst run = Return text)
  ∧ (∀ f h1 e,
       repo_get_contents client repo file_path branch h = (Return (CFile f), h1) →
       decode_utf8 (decoded_content f) = Raise e →
       fst run = Return ("Error reading file: " ++ str_exn e))
  ∧ (∀ entries h1,
       repo_get_contents client repo file_path branch h
         = (Return (CDir entries), h1) →
       fst run = Return "Error reading file: 'list' object has no attribute 'decoded_content'")
  ∧ (∀ e h1,
       repo_get_contents client repo file_path branch h = (Raise e, h1) →
       fst run = Return ("Error reading file: " ++ str_exn e)).
Proof.
  cbv zeta. unfold read_file, branch. split; [|split; [|split]].
  - intros f h1 text Hlookup Hdecode. run_tool. step Hlookup. now rewrite Hdecode.
  - intros f h1 e Hlookup Hdecode. run_tool. step Hlookup. now rewrite Hdecode.
  - intros entries h1 Hlookup. run_tool. now step Hlookup.
  - intros e h1 Hlookup. run_tool. now step Hlookup.
Qed.

(** X6. The branch tool asks for the reference [refs/heads/] followed by
    the branch name, at the commit the default branch points to. If the
    default branch cannot be fetched no reference is requested. A refused
    reference (a branch that already exists, for one) gives the error
    string of the refusal. *)
Theorem create_branch_outcomes (branch_name : string) :
  let run := create_branch repo_name branch_name w in
  let fetch := logged client "get_branch" [branch] in
  let ref := "refs/heads/" ++ branch_name in
  (∀ source h1 u h2,
     repo_get_branch client repo branch h = (Return source, h1) →
     repo_create_git_ref client repo ref
       (commit_sha source) h1 = (Return u, h2) →
     fst run = Return ("Successfully created branch '" ++ branch_name ++ "'.")
     ∧ calls (snd run)
       = (calls w ++ [get_repo_call; fetch;
                      logged client "create_git_ref"
                        [ref; commit_sha source]])%list
     ∧ hub (snd run) = h2)
  ∧ (∀ source h1 e h2,
       repo_get_branch client repo branch h = (Return source, h1) →
       repo_create_git_ref client repo ref
         (commit_sha source) h1 = (Raise e, h2) →
       fst run = Return ("Error creating branch: " ++ str_exn e))
  ∧ (∀ e h1,
       repo_get_branch client repo branch h = (Raise e, h1) →
       fst run = Return ("Error creating branch: " ++ str_exn e)
       ∧ calls (snd run) = (calls w ++ [get_repo_call; fetch])%list
       ∧ hub (snd run) = h1).
Proof.
  cbv zeta. unfold create_branch, branch, get_repo_call. split; [|split].
  - intros source h1 u h2 Hfetch Href. run_tool. step Hfetch. step Href.
    done_log.
  - intros source h1 e h2 Hfetch Href. run_tool. step Hfetch. now step Href.
  - intros e h1 Hfetch. run_tool. step Hfetch. done_log.
Qed.

(** X7. The issue tool puts the title and the body on what reads as two
    lines but is one: the separator is a backslash and the letter n. An
    issue without a body shows the text [None]. A failed lookup gives a
    string that starts with [Error getting issue details:]. *)
Theorem get_issue_details_outcomes (issue_number : Z) :
  let run := get_issue_details repo_name issue_number w in
  (∀ issue h1,
     repo_get_issue client repo issue_number h = (Return issue, h1) →
     fst run
     = Return ("Issue Title: " ++ title issue ++ backslash_n ++ "Issue Body: "
                 ++ match body issue with Some text => text | None => "None" end))
  ∧ (∀ e h1,
       repo_get_issue client repo issue_number h = (Raise e, h1) →
       fst run = Return ("Error getting issue details: " ++ str_exn e)).
Proof.
  cbv zeta. unfold get_issue_details. split.
  - intros issue h1 Hissue. run_tool. step Hissue. now destruct (body issue).
  - intros e h1 Hissue. run_tool. now step Hissue.
Qed.

(** X8. The listing tool, when the tree is fetched, returns the paths
    of exactly the entries whose type is [blob], each as often and in the
    order the tree has them, joined by a backslash and the letter n; a
    tree that cannot be fetched gives a string that starts with
    [Error listing files:]. *)
Theorem list_repository_files_outcomes :
  let run := list_repository_files repo_name w in
  (∀ tree h1,
     repo_get_git_tree client repo branch h = (Return tree, h1) →
     fst run = Return (join backslash_n (tree_path <$> List.filter is_blob tree))
     ∧ ∀ p, In p (tree_path <$> List.filter is_blob tree) ↔
            ∃ element, In element tree ∧ tree_type element = "blob"
                       ∧ tree_path element = p)
  ∧ (∀ e h1,
       repo_get_git_tree client repo branch h = (Raise e, h1) →
       fst run = Return ("Error listing files: " ++ str_exn e)).
Proof.
  cbv zeta. unfold list_repository_files, branch. split.
  - intros tree h1 Htree. split; [run_tool; now step Htree|].
    intros p. apply blob_paths_spec.
  - intros e h1 Htree. run_tool. now step Htree.
Qed.

End Resolved.
End ToolOutcomes.

(* ===================================================================== *)
(** * Setting and clearing the token *)
(* ===================================================================== *)

Module TokenFacts.
Import GithubTools ToolFacts.

Section Token.
Context {R : Type}.
Implicit Types (w : world R) (token : option string).

(** X9. The token set last is the one in force: after any earlier
    setting or clearing, setting a non-empty token makes the client check
    return a client with exactly that token, and the environment holds
    it under [GITHUB_PAT]. *)
Theorem last_token_wins (earlier : option string) (t : string) w :
  t ≠ "" →
  let after := snd (set_github_token (Some t) (snd (set_github_token earlier w))) in
  fst (_ensure_client after) = Return {| auth_token := t |}
  ∧ environ after !! "GITHUB_PAT" = Some t.
Proof.
  intros Ht. cbv zeta. destruct t as [|a t]; [congruence|]. split.
  - now rewrite ensure_client_eq.
  - change (environ (snd (set_github_token (Some (String a t))
                            (snd (set_github_token earlier w)))))
      with (<["GITHUB_PAT" := String a t]>
              (environ (snd (set_github_token earlier w)))).
    apply lookup_insert_eq.
Qed.

(** X10. Clearing is final. Setting [None], or the empty string, removes
    both the client and the variable [GITHUB_PAT], whatever was there, so
    the client check that follows raises: a token that came from the
    environment does not come back. *)
Theorem clearing_removes_every_credential token w :
  truthy_opt token = false →
  let after := snd (set_github_token token w) in
  github_client after = None
  ∧ environ after !! "GITHUB_PAT" = None
  ∧ _ensure_client after = (Raise (RuntimeError not_configured), after).
Proof.
  intros Ht. cbv zeta.
  assert (Heq : set_github_token token w = set_github_token None w).
  { unfold set_github_token. now rewrite Ht. }
  rewrite Heq.
  split; [reflexivity|]. split.
  - change (environ (snd (set_github_token None w)))
      with (delete "GITHUB_PAT" (environ w)). apply lookup_delete_eq.
  - apply ensure_client_unconfigured. split; [reflexivity|].
    change (environ (snd (set_github_token None w)))
      with (delete "GITHUB_PAT" (environ w)). now rewrite lookup_delete_eq.
Qed.

(** X11. [set_github_token] touches no other variable of the
    environment. *)
Theorem other_variables_untouched token w (k : string) :
  k ≠ "GITHUB_PAT" →
  environ (snd (set_github_token token w)) !! k = environ w !! k.
Proof.
  intros Hk. unfold set_github_token. destruct (truthy_opt token).
  - change (<["GITHUB_PAT" := str_opt token]> (environ w) !! k = environ w !! k).
    now apply lookup_insert_ne.
  - change (delete "GITHUB_PAT" (environ w) !! k = environ w !! k).
    now apply lookup_delete_ne.
Qed.

(** X12. How the client check resolves. A client already set is returned
    as it is, whatever the environment holds. With no client set, a
    non-empty [GITHUB_PAT] makes a client of that token and stores it.
    Checking twice is the same as checking once. *)
Theorem ensure_client_resolution w :
  (∀ g, github_client w = Some g → _ensure_client w = (Return g, w))
  ∧ (∀ t, github_client w = None → environ w !! "GITHUB_PAT" = Some t →
          t ≠ "" →
          fst (_ensure_client w) = Return {| auth_token := t |}
          ∧ github_client (snd (_ensure_client w)) = Some {| auth_token := t |})
  ∧ _ensure_client (snd (_ensure_client w))
    = (fst (_ensure_client w), snd (_ensure_client w)).
Proof.
  split; [|split].
  - intros g Hg. rewrite ensure_client_eq. unfold resolve. rewrite Hg.
    destruct w; simpl in *. now subst.
  - intros t Hnone Henv Ht. rewrite ensure_client_eq. unfold resolve.
    rewrite Hnone, Henv. destruct t; [congruence|]. now split.
  - rewrite !ensure_client_eq. destruct (resolve w) as [g|] eqn:Hg; simpl.
    + reflexivity.
    + now rewrite Hg.
Qed.

End Token.
End TokenFacts.

(* ===================================================================== *)
(** * More on the session store and the endpoints *)
(* ===================================================================== *)

Module SessionFacts.
Import GithubTools Api ApiFacts.

(** X13. Resolving a session succeeds exactly when the store holds a
    non-empty token for the id, and the client then carries that token.
    In every other case, a missing entry, a stored [None] or a stored
    empty string, it raises the exception with code 401. *)
Theorem get_github_client_succeeds_iff (session_id : string)
    (user_sessions : sessions) :
  (∀ client,
     get_github_client session_id user_sessions = Return client
     ↔ ∃ token, user_sessions !! session_id = Some (Some token)
                ∧ token ≠ "" ∧ client = {| auth_token := token |})
  ∧ ((∃ client, get_github_client session_id user_sessions = Return client)
     ∨ get_github_client session_id user_sessions
       = Raise (HTTPException 401 "User not authenticated.")).
Proof.
  unfold get_github_client, dict_get.
  destruct (user_sessions !! session_id) as [[[|a t]|]|] eqn:Hs; simpl.
  - split; [|now right]. intros client. split; [discriminate|].
    intros (token & [= <-] & Hne & _). congruence.
  - split; [|left; now eexists]. intros client. split.
    + intros [= <-]. exists (String a t). now repeat split.
    + intros (token & [= <-] & _ & ->). reflexivity.
  - split; [|now right]. intros client. split; [discriminate|].
    intros (token & [=] & _).
  - split; [|now right]. intros client. split; [discriminate|].
    intros (token & [=] & _).
Qed.

(** X14. Logging out the session a callback has just created gives the
    store back as it was before the callback, and answers with status
    [success], also when the callback stored no token. *)
Theorem logout_undoes_callback (access_token : option string)
    (session_id : string) (user_sessions : sessions) :
  user_sessions !! session_id = None →
  logout session_id (snd (github_callback access_token session_id user_sessions))
  = (Json (status_message "success" "Logged out successfully."), user_sessions).
Proof.
  intros Hfresh. unfold logout, github_callback; simpl.
  rewrite bool_decide_eq_true_2 by (rewrite lookup_insert_eq; eauto).
  f_equal. rewrite delete_insert_eq. now apply delete_id.
Qed.

(** X15. A second logout of the same session finds nothing: it answers
    with status [error] and leaves the store as the first logout left it,
    and the session cannot be resolved after either. *)
Theorem logout_twice (session_id : string) (user_sessions : sessions) :
  let once := snd (logout session_id user_sessions) in
  logout session_id once
  = (Json (status_message "error" "Session not found."), once)
  ∧ get_github_client session_id once
    = Raise (HTTPException 401 "User not authenticated.").
Proof.
  cbv zeta.
  assert (Hgone : snd (logout session_id user_sessions) !! session_id = None).
  { unfold logout. case_bool_decide as Hin; simpl.
    - apply lookup_delete_eq.
    - destruct (user_sessions !! session_id) eqn:Hs; [|reflexivity].
      exfalso. apply Hin. eauto. }
  split.
  - unfold logout at 1. rewrite bool_decide_eq_false_2; [reflexivity|].
    rewrite Hgone. now intros [? ?].
  - apply get_github_client_no_credential. unfold no_credential, dict_get.
    now rewrite Hgone.
Qed.

(** X16. Sessions do not interfere: a callback or a logout for one id
    changes nothing in what another id resolves to. *)
Theorem other_sessions_resolve_the_same (access_token : option string)
    (session_id other : string) (user_sessions : sessions) :
  other ≠ session_id →
  get_github_client other
    (snd (github_callback access_token session_id user_sessions))
  = get_github_client other user_sessions
  ∧ get_github_client other (snd (logout session_id user_sessions))
    = get_github_client other user_sessions.
Proof.
  intros Hne. unfold get_github_client, dict_get. split.
  - unfold github_callback; simpl. now rewrite lookup_insert_ne.
  - unfold logout. case_bool_decide; simpl; [|reflexivity].
    now rewrite lookup_delete_ne.
Qed.

Section Endpoints.
Context {R : Type} `{Remote R}.
Variable run_agent : string → Github → R → outcome json * R.

Definition repos_body (repos : list Repository) : json :=
  JObj [("status", JStr "success");
        ("repos", JList (JStr <$> (full_name <$> repos)))].

(** X17. [POST /user/repos] never raises, so its status is always 200.
    For a session holding a token, the platform is asked with a client of
    that token: the names of the repositories come back in the order
    given, and a failure of the platform comes back as a body with status
    [error] and the text of the failure. *)
Theorem get_user_repos_outcomes (session_id : string)
    (user_sessions : sessions) (h : R) :
  http_status (fst (get_user_repos session_id user_sessions h)) = 200%Z
  ∧ ∀ token,
      user_sessions !! session_id = Some (Some token) → token ≠ "" →
      (∀ repos h',
         client_get_user_repos {| auth_token := token |} h = (Return repos, h') →
         get_user_repos session_id user_sessions h
         = (Return (Json (repos_body repos)), h'))
      ∧ (∀ e h',
           client_get_user_repos {| auth_token := token |} h = (Raise e, h') →
           get_user_repos session_id user_sessions h
           = (Return (Json (status_message "error" (str_exn e))), h')).
Proof.
  split.
  - unfold get_user_repos.
    destruct (get_github_client _ _) as [g|e]; [|reflexivity].
    destruct (client_get_user_repos g h) as [[repos|e] h']; reflexivity.
  - intros token Hs Hne. unfold get_user_repos.
    rewrite (get_github_client_stored _ _ _ Hne Hs).
    split; [intros repos h' -> | intros e h' ->]; reflexivity.
Qed.

(** X18. [POST /run-agent] for a session holding a token runs the agent
    with a client of that token. What the agent returns is wrapped in a
    body with status [success]; an [HTTPException] of the agent becomes a
    body with status [error]; any other exception of the agent leaves the
    endpoint, which the framework answers with status 500. *)
Theorem run_agent_endpoint_outcomes (session_id goal token : string)
    (user_sessions : sessions) (h : R) :
  user_sessions !! session_id = Some (Some token) → token ≠ "" →
  let run := run_agent_endpoint run_agent session_id goal user_sessions h in
  let agent := run_agent goal {| auth_token := token |} h in
  (∀ result h', agent = (Return result, h') →
     run = (Return (Json (JObj [("status", JStr "success"); ("result", result)])),
            h'))
  ∧ (∀ code detail h', agent = (Raise (HTTPException code detail), h') →
       run = (Return (Json (status_message "error" detail)), h'))
  ∧ (∀ e h', agent = (Raise e, h') →
       (∀ code detail, e ≠ HTTPException code detail) →
       run = (Raise e, h') ∧ http_status (fst run) = 500%Z).
Proof.
  intros Hs Hne. cbv zeta. unfold run_agent_endpoint.
  rewrite (get_github_client_stored _ _ _ Hne Hs). split; [|split].
  - now intros result h' ->.
  - now intros code detail h' ->.
  - intros e h' -> Hother.
    destruct e; try (split; reflexivity). now destruct (Hother status_code detail).
Qed.

End Endpoints.
End SessionFacts.

(* ===================================================================== *)
(** * The task prompts of app.py *)
(* ===================================================================== *)

Module TaskFacts.
Import App AppTasks StringFacts.

Lemma truthy_str_true (s : string) : s ≠ "" → truthy_str s = true.
Proof. destruct s; [congruence | reflexivity]. Qed.

Lemma truthy_int_true (n : Z) : n ≠ 0%Z → truthy_int n = true.
Proof. intros Hn. unfold truthy_int. now apply negb_true_iff, Z.eqb_neq. Qed.

(** The guidance line of the debug prompt. *)
Definition guidance_shown (user_guidance : string) : string :=
  if truthy_str user_guidance then user_guidance else "None provided.".

(** X19. For every issue number other than 0, every guidance text and
    every repository selected, the debug goal is built and names the
    issue, the branch [fix/issue-N], the commit message
    [fix: Resolve issue #N], the pull-request title
    [Fix: Resolve issue #N] and the repository, each in quotes where the
    template quotes it; the guidance is quoted as typed, or reads
    [None provided.] when it is empty. *)
Theorem debug_goal_names_the_issue (n : Z) (user_guidance repo : string) :
  n ≠ 0%Z → repo ≠ "" →
  ∃ goal, debug_goal n user_guidance (Some repo) = Some goal
          ∧ contains ("issue #" ++ str_int n) goal
          ∧ contains ("'fix/issue-" ++ str_int n ++ "'") goal
          ∧ contains ("'fix: Resolve issue #" ++ str_int n ++ "'") goal
          ∧ contains ("'Fix: Resolve issue #" ++ str_int n ++ "'") goal
          ∧ contains ("'" ++ repo ++ "'") goal
          ∧ contains ("User guidance: '" ++ guidance_shown user_guidance ++ "'")
              goal.
Proof.
  intros Hn Hrepo. unfold debug_goal.
  rewrite (truthy_int_true _ Hn). unfold truthy_opt.
  rewrite (truthy_str_true _ Hrepo). cbn [andb str_opt].
  fold (guidance_shown user_guidance).
  eexists; split; [reflexivity|].
  split; [|split; [|split; [|split; [|split]]]].
  - eapply contains_join; [do 5 right; left; reflexivity|].
    exists (indent
          ++ "1. **Understand the Bug:** Use the `get_issue_details` "
          ++ "tool for "),
          " to understand the problem.".
    rewrite ?append_assoc. reflexivity.
  - eapply contains_join; [do 6 right; left; reflexivity|].
    exists (indent
          ++ "2. **Create a Branch:** Create a new branch named exactly "),
          ".".
    rewrite ?append_assoc. reflexivity.
  - eapply contains_join; [do 8 right; left; reflexivity|].
    exists (indent
          ++ "4. **Implement the Fix:** Once you have analyzed the "
          ++ "code, use the `create_or_update_file` tool to apply the "
          ++ "necessary code changes to the relevant file. The commit "
          ++ "message for this change MUST be "),
          ".".
    rewrite ?append_assoc. reflexivity.
  - eapply contains_join; [do 9 right; left; reflexivity|].
    exists (indent
          ++ "5. **Create a Pull Request:** After committing the fix, "
          ++ "create a pull request to merge the 'fix/issue-"
          ++ str_int n
          ++ "' branch into the main branch. The title of the pull "
          ++ "request MUST be "),
          ".".
    rewrite ?append_assoc. reflexivity.
  - eapply contains_join; [do 1 right; left; reflexivity|].
    exists (indent
          ++ "You are an expert AI software developer. Your task is to "
          ++ "debug and fix issue #"
          ++ str_int n
          ++ " in the repo "),
          ".".
    rewrite ?append_assoc. reflexivity.
  - eapply contains_join; [do 2 right; left; reflexivity|].
    exists indent, "". rewrite ?append_assoc, ?append_nil_r. reflexivity.
Qed.

Lemma if_some {A} (c : bool) (a b : A) :
  (if c then Some a else None) = Some b → c = true ∧ a = b.
Proof. destruct c; [now intros [= ->] | discriminate]. Qed.

(** X20. Whatever the task, a goal that is built names the selected
    repository in quotes. *)
Theorem every_goal_names_the_repository (t : task) (repo goal : string) :
  goal_to_run t (Some repo) = Some goal →
  contains ("'" ++ repo ++ "'") goal.
Proof.
  destruct t as [d|n g|p c m|p|p m]; simpl; intros Hgoal.
  - apply if_some in Hgoal as [_ <-]. cbn [str_opt].
    eapply contains_join; [do 1 right; left; reflexivity|].
    exists (indent
          ++ "You are an expert AI software developer. Your task is to "
          ++ "implement a new feature in the repo "),
           ".".
    rewrite ?append_assoc. reflexivity.
  - unfold debug_goal in Hgoal. apply if_some in Hgoal as [_ <-].
    cbn [str_opt].
    eapply contains_join; [do 1 right; left; reflexivity|].
    exists (indent
          ++ "You are an expert AI software developer. Your task is to "
          ++ "debug and fix issue #"
          ++ str_int n
          ++ " in the repo "),
          ".".
    rewrite ?append_assoc. reflexivity.
  - apply if_some in Hgoal as [_ <-]. cbn [str_opt].
    exists "In the repository ",
           (", create or update the file at path '" ++ p
              ++ "' with the provided content. Use the commit message: '"
              ++ m ++ "'.").
    rewrite ?append_assoc. reflexivity.
  - apply if_some in Hgoal as [_ <-]. cbn [str_opt].
    exists "In the repository ",
           (", read the content of the file at path '" ++ p
              ++ "' and present it as your final answer.").
    rewrite ?append_assoc. reflexivity.
  - apply if_some in Hgoal as [_ <-]. cbn [str_opt].
    exists "In the repository ",
           (", delete the file at path '" ++ p
              ++ "'. Use the commit message: '" ++ m ++ "'.").
    rewrite ?append_assoc. reflexivity.
Qed.

(** X21. Without a repository selected, no task builds a goal, whatever
    the fields hold. *)
Theorem no_goal_without_repository (t : task) (selected_repo : option string) :
  truthy_opt selected_repo = false → goal_to_run t selected_repo = None.
Proof.
  intros Hrepo.
  destruct t; simpl;
    unfold feature_goal, debug_goal, file_write_goal, file_read_goal,
      file_delete_goal;
    rewrite Hrepo, ?andb_false_r; reflexivity.
Qed.

End TaskFacts.

(* ===================================================================== *)
(** * Further runs on the in-memory platform *)
(* ===================================================================== *)

Module MoreScenarios.
Import GithubTools MemHub Api App AppTasks.
Import ToolFacts ToolOutcomes TokenFacts ApiFacts SessionFacts TaskFacts Scenarios.

Definition rw : Github := {| auth_token := "rw-token" |}.

Lemma rw_client : fst (_ensure_client (connected "rw-token")) = Return rw.
Proof. vm_compute. reflexivity. Defined.

Lemma rw_widgets :
  client_get_repo rw "acme/widgets" (hub (connected "rw-token"))
  = (Return main_of_widgets, acme).
Proof. vm_compute. reflexivity. Defined.

Lemma write_file_calls_run :
  call_op <$> calls (snd (create_or_update_file "acme/widgets" "NEW.md" "Hi"
                            "docs: add" (connected "rw-token")))
  = ["get_repo"; "get_contents"; "create_file"].
Proof.
  pose proof (write_file_call_sequence (connected "rw-token") rw "acme/widgets"
                main_of_widgets acme rw_client rw_widgets
                "NEW.md" "Hi" "docs: add") as Hseq.
  cbv zeta in Hseq. destruct Hseq as (Hcreate & _ & _).
  rewrite (Hcreate (GithubException "404 Not Found") acme); reflexivity.
Defined.

Lemma delete_missing_file_run :
  fst (delete_file "acme/widgets" "nope" "chore: remove" (connected "rw-token"))
  = Return "Error deleting file: 404 Not Found"
  ∧ hub (snd (delete_file "acme/widgets" "nope" "chore: remove"
                (connected "rw-token"))) = acme.
Proof.
  pose proof (delete_file_outcomes (connected "rw-token") rw "acme/widgets"
                main_of_widgets acme rw_client rw_widgets
                "nope" "chore: remove") as Hout.
  cbv zeta in Hout. destruct Hout as (Hmissing & _ & _).
  destruct (Hmissing (GithubException "404 Not Found") acme eq_refl)
    as (Hres & _ & Hhub).
  split; assumption.
Defined.

Lemma read_readme_run :
  fst (read_file "acme/widgets" "README.md" (connected "rw-token"))
  = Return "Hello".
Proof.
  pose proof (read_file_outcomes (connected "rw-token") rw "acme/widgets"
                main_of_widgets acme rw_client rw_widgets "README.md") as Hout.
  cbv zeta in Hout. destruct Hout as (Hfile & _).
  exact (Hfile {| content_path := "README.md"; content_sha := "sha:Hello";
                  decoded_content := "Hello" |} acme "Hello" eq_refl eq_refl).
Defined.

Lemma create_existing_branch_run :
  fst (create_branch "acme/widgets" "fix/issue-42" (connected "rw-token"))
  = Return "Error creating branch: 422 Reference already exists".
Proof.
  pose proof (create_branch_outcomes (connected "rw-token") rw "acme/widgets"
                main_of_widgets acme rw_client rw_widgets "fix/issue-42")
    as Hout.
  cbv zeta in Hout. destruct Hout as (_ & Hrefused & _).
  exact (Hrefused {| commit_sha := "tip:main" |} acme
           (GithubException "422 Reference already exists") acme
           eq_refl eq_refl).
Defined.

Lemma issue_without_body_run :
  fst (get_issue_details "acme/widgets" 42 (connected "rw-token"))
  = Return ("Issue Title: Crash on start" ++ backslash_n ++ "Issue Body: None").
Proof.
  pose proof (get_issue_details_outcomes (connected "rw-token") rw
                "acme/widgets" main_of_widgets acme rw_client rw_widgets 42)
    as Hout.
  cbv zeta in Hout. destruct Hout as (Hfound & _).
  exact (Hfound {| title := "Crash on start"; body := None |} acme eq_refl).
Defined.

Lemma list_widgets_run :
  fst (list_repository_files "acme/widgets" (connected "rw-token"))
  = Return (join backslash_n ["README.md"; "src/main.py"]).
Proof.
  pose proof (list_repository_files_outcomes (connected "rw-token") rw
                "acme/widgets" main_of_widgets acme rw_client rw_widgets)
    as Hout.
  cbv zeta in Hout. destruct Hout as (Htree & _).
  destruct (Htree [ {| tree_path := "README.md"; tree_type := "blob" |};
                    {| tree_path := "src"; tree_type := "tree" |};
                    {| tree_path := "src/main.py"; tree_type := "blob" |} ]
              acme eq_refl) as (Hres & _).
  exact Hres.
Defined.

Lemma second_token_wins_run :
  "tok2" ≠ ""
  ∧ fst (_ensure_client
           (snd (set_github_token (Some "tok2")
                   (snd (set_github_token (Some "tok1") fresh)))))
    = Return {| auth_token := "tok2" |}.
Proof.
  assert (Hne : "tok2" ≠ "") by discriminate. split; [exact Hne|].
  pose proof (last_token_wins (Some "tok1") "tok2" fresh Hne) as Hlast.
  cbv zeta in Hlast. exact (proj1 Hlast).
Defined.

Lemma disconnect_run :
  github_client (snd (set_github_token (Some "") (connected "rw-token"))) = None
  ∧ environ (snd (set_github_token (Some "") (connected "rw-token")))
      !! "GITHUB_PAT" = None.
Proof.
  pose proof (clearing_removes_every_credential (Some "")
                (connected "rw-token") eq_refl) as Hclear.
  cbv zeta in Hclear. destruct Hclear as (Hc & He & _). split; assumption.
Defined.

Lemma home_variable_kept_run :
  "HOME" ≠ "GITHUB_PAT"
  ∧ environ (snd (set_github_token (Some "tok1") fresh)) !! "HOME"
    = environ fresh !! "HOME".
Proof.
  assert (Hne : "HOME" ≠ "GITHUB_PAT") by discriminate. split; [exact Hne|].
  exact (other_variables_untouched (Some "tok1") fresh "HOME" Hne).
Defined.

Lemma callback_then_logout_run :
  logout "s1" (snd (github_callback None "s1" {[ "s2" := Some "tok2" ]}))
  = (Json (status_message "success" "Logged out successfully."),
     {[ "s2" := Some "tok2" ]}).
Proof.
  apply (logout_undoes_callback None "s1" {[ "s2" := Some "tok2" ]}).
  vm_compute. reflexivity.
Defined.

Lemma other_session_run :
  get_github_client "s2"
    (snd (github_callback None "s1" {[ "s2" := Some "tok2" ]}))
  = get_github_client "s2" {[ "s2" := Some "tok2" ]}.
Proof.
  assert (Hne : "s2" ≠ "s1") by discriminate.
  exact (proj1 (other_sessions_resolve_the_same None "s1" "s2"
                  {[ "s2" := Some "tok2" ]} Hne)).
Defined.

Lemma run_agent_run :
  run_agent_endpoint idle_agent "s1" "list files" {[ "s1" := Some "rw-token" ]}
    acme
  = (Return (Json (JObj [("status", JStr "success");
                         ("result", JObj [("output", JStr "done");
                                          ("logs", JStr "")])])), acme).
Proof.
  assert (Hs : ({[ "s1" := Some "rw-token" ]} : sessions) !! "s1"
               = Some (Some "rw-token")) by (vm_compute; reflexivity).
  assert (Hne : "rw-token" ≠ "") by discriminate.
  pose proof (run_agent_endpoint_outcomes idle_agent "s1" "list files"
                "rw-token" {[ "s1" := Some "rw-token" ]} acme Hs Hne) as Hout.
  cbv zeta in Hout. destruct Hout as (Hok & _).
  exact (Hok _ acme eq_refl).
Defined.

Lemma debug_goal_issue_7_run :
  ∃ goal, debug_goal 7 "see src/logic.py" (Some "acme/widgets") = Some goal
          ∧ contains "'fix/issue-7'" goal
          ∧ contains "User guidance: 'see src/logic.py'" goal.
Proof.
  assert (Hn : 7%Z ≠ 0%Z) by discriminate.
  assert (Hrepo : "acme/widgets" ≠ "") by discriminate.
  destruct (debug_goal_names_the_issue 7 "see src/logic.py" "acme/widgets"
              Hn Hrepo) as (goal & Hgoal & _ & Hbranch & _ & _ & _ & Hguide).
  exists goal. repeat split; assumption.
Defined.

Lemma read_goal_run :
  contains "'acme/widgets'"
    "In the repository 'acme/widgets', read the content of the file at path 'README.md' and present it as your final answer.".
Proof.
  apply (every_goal_names_the_repository (FileRead "README.md") "acme/widgets").
  reflexivity.
Defined.

Lemma no_repository_run :
  goal_to_run (FileWrite "a.txt" "text" "feat: add a.txt") None = None.
Proof.
  apply (no_goal_without_repository (FileWrite "a.txt" "text" "feat: add a.txt")
           None).
  reflexivity.
Defined.

Example pull_request_unknown_repository :
  fst (create_pull_request "acme/nothing" "t" "text" "fix/issue-42"
         (connected "rw-token"))
  = Return "Error creating pull request: 404 Not Found".
Proof. vm_compute. reflexivity. Qed.

Example pull_request_without_credential :
  fst (create_pull_request "acme/widgets" "t" "text" "fix/issue-42" fresh)
  = Return ("Error creating pull request: " ++ not_configured).
Proof. vm_compute. reflexivity. Qed.

Example write_file_unknown_repository :
  fst (create_or_update_file "acme/nothing" "NEW.md" "Hi" "docs: add"
         (connected "rw-token"))
  = Return "Error creating or updating file: 404 Not Found".
Proof. vm_compute. reflexivity. Qed.

Example write_file_over_directory :
  fst (create_or_update_file "acme/widgets" "src" "Hi" "docs: add"
         (connected "rw-token"))
  = Return "Error creating or updating file: 422 Invalid request: sha was not supplied".
Proof. vm_compute. reflexivity. Qed.

End MoreScenarios.
